(** * killkrill log-receiver: the XDP admission filter [xdp_filter.c]

    A shallow embedding of [apps/log-receiver/xdp_filter.c] and the
    properties of its per-packet decision: the destination-port
    allow-list, the CIDR rule scan, the header parser and the statistics
    block.

    Conventions of the embedding.
    - A frame is the byte buffer between [ctx->data] and [ctx->data_end];
      pointers into it are offsets (in [Z]) from [data], so [data = 0] and
      [data_end] is the length of the buffer.
    - Unsigned C integers are [Z]; the only arithmetic that can wrap is the
      64-bit [__sync_fetch_and_add], written out as [mod 2^64].
    - C [int]s used as truth values stay integers; [c_true] is C's test
      "non-zero".
    - A BPF array map is the list of its slots; [bpf_map_lookup_elem] is the
      list lookup, [None] being the NULL pointer the code tests for.  The
      kernel allocates every slot of an array map when it creates the map,
      so on a loaded program the lookup of key 0 of [xdp_statistics]
      succeeds; the theorems that speak of a counter say so in the
      hypothesis [xdp_statistics m !! 0 = Some st].
    - The program runs on either byte order; [host] is the byte order of the
      machine the object file was built for. *)

From Stdlib Require Import ZArith Lia Bool.
From Stdlib.Strings Require Import Byte.
From stdpp Require Import base tactics option list.

Local Open Scope Z_scope.

(** ** Constants of the program and of the kernel headers it includes *)

Definition MAX_CIDR_RULES : nat := 1024.
Definition MAX_PORT_RULES : nat := 64.

(** [linux/if_ether.h], [linux/in.h]. *)
Definition ETH_P_IP : Z := 0x0800.
Definition IPPROTO_TCP : Z := 6.
Definition IPPROTO_UDP : Z := 17.

(** [sizeof] of the packed header structs of [linux/if_ether.h],
    [linux/ip.h], [linux/tcp.h] and [linux/udp.h]. *)
Definition sizeof_ethhdr : Z := 14.
Definition sizeof_iphdr : Z := 20.
Definition sizeof_tcphdr : Z := 20.
Definition sizeof_udphdr : Z := 8.

(** [enum xdp_action] of [linux/bpf.h]; the filter returns these two. *)
Inductive xdp_action : Set := XDP_DROP | XDP_PASS.

(** ** Data model *)

(** [struct cidr_rule]: [__u32 network, mask], [__u16 port], [__u8 enabled,
    reserved]. *)
Record cidr_rule : Set := {
  network : Z;
  mask : Z;
  port : Z;
  enabled : Z;
  reserved : Z
}.

(** [struct xdp_stats]: ten [__u64] counters. *)
Record xdp_stats : Set := {
  packets_total : Z;
  packets_allowed : Z;
  packets_blocked : Z;
  bytes_total : Z;
  bytes_allowed : Z;
  bytes_blocked : Z;
  tcp_packets : Z;
  udp_packets : Z;
  syslog_packets : Z;
  api_packets : Z
}.

(** The three maps of the object file.  [xdp_statistics] is a per-CPU array
    with one entry; the embedding follows one execution context, hence one
    copy of it. *)
Record bpf_maps : Set := {
  cidr_rules : list cidr_rule;
  allowed_ports : list Z;
  xdp_statistics : list xdp_stats
}.

Definition bpf_map_lookup_elem {V : Type} (map : list V) (key : nat) : option V :=
  map !! key.

(** C's truth test on an integer. *)
Definition c_true (x : Z) : bool := negb (x =? 0).

(** ** Reading the frame *)

Inductive byte_order : Set := LittleEndian | BigEndian.

Definition byte_val (b : byte) : Z := Z.of_N (Byte.to_N b).

(** The byte at offset [off] of the frame.  Every read of the program is
    behind a bounds check; outside the buffer the model reads 0. *)
Definition byte_at (pkt : list byte) (off : Z) : Z :=
  match pkt !! Z.to_nat off with
  | Some b => byte_val b
  | None => 0
  end.

(** A [__be16] / [__be32] field loaded as the host's [__u16] / [__u32]. *)
Definition load_u16 (host : byte_order) (pkt : list byte) (off : Z) : Z :=
  match host with
  | LittleEndian =>
      Z.lor (byte_at pkt off) (Z.shiftl (byte_at pkt (off + 1)) 8)
  | BigEndian =>
      Z.lor (Z.shiftl (byte_at pkt off) 8) (byte_at pkt (off + 1))
  end.

Definition load_u32 (host : byte_order) (pkt : list byte) (off : Z) : Z :=
  match host with
  | LittleEndian =>
      Z.lor (load_u16 LittleEndian pkt off)
            (Z.shiftl (load_u16 LittleEndian pkt (off + 2)) 16)
  | BigEndian =>
      Z.lor (Z.shiftl (load_u16 BigEndian pkt off) 16)
            (load_u16 BigEndian pkt (off + 2))
  end.

(** [___constant_swab16]. *)
Definition swab16 (x : Z) : Z :=
  Z.lor (Z.shiftl (Z.land x 0x00ff) 8) (Z.shiftr (Z.land x 0xff00) 8).

Definition bpf_htons (host : byte_order) (x : Z) : Z :=
  match host with
  | LittleEndian => swab16 x
  | BigEndian => x
  end.

Definition bpf_ntohs (host : byte_order) (x : Z) : Z :=
  match host with
  | LittleEndian => swab16 x
  | BigEndian => x
  end.

(** Field offsets inside the headers. *)
Definition eth_h_proto (eth : Z) : Z := eth + 12.
Definition ip_protocol (ip : Z) : Z := ip + 9.
Definition ip_saddr (ip : Z) : Z := ip + 12.
Definition l4_dest (l4 : Z) : Z := l4 + 2.

(** [ip->ihl]: the low four bits of the first byte of the IPv4 header (the
    bit-field order of [struct iphdr] follows the byte order, so this holds on
    both). *)
Definition ip_ihl (pkt : list byte) (ip : Z) : Z := Z.land (byte_at pkt ip) 0x0f.

(** ** [check_cidr_match] *)

Definition check_cidr_match (ip : Z) (rule : cidr_rule) : Z :=
  if negb (c_true (enabled rule)) then 0
  else
    let masked_ip := Z.land ip (mask rule) in
    let masked_network := Z.land (network rule) (mask rule) in
    Z.b2z (masked_ip =? masked_network).

(** ** [check_port_allowed] *)

(** The [for] loop with [n] iterations left, at index [i]. *)
Fixpoint check_port_allowed_loop (n : nat) (i : nat) (ports : list Z) (port : Z) : Z :=
  match n with
  | O => 0
  | S n' =>
      match bpf_map_lookup_elem ports i with
      | None => 0
      | Some allowed_port =>
          if allowed_port =? 0 then 0
          else if allowed_port =? port then 1
          else check_port_allowed_loop n' (S i) ports port
      end
  end.

Definition check_port_allowed (ports : list Z) (port : Z) : Z :=
  check_port_allowed_loop MAX_PORT_RULES 0 ports port.

(** ** [update_stats] *)

Inductive counter : Set :=
  | c_packets_total | c_packets_allowed | c_packets_blocked
  | c_bytes_total | c_bytes_allowed | c_bytes_blocked
  | c_tcp_packets | c_udp_packets | c_syslog_packets | c_api_packets.

Definition counter_eqb (a b : counter) : bool :=
  match a, b with
  | c_packets_total, c_packets_total
  | c_packets_allowed, c_packets_allowed
  | c_packets_blocked, c_packets_blocked
  | c_bytes_total, c_bytes_total
  | c_bytes_allowed, c_bytes_allowed
  | c_bytes_blocked, c_bytes_blocked
  | c_tcp_packets, c_tcp_packets
  | c_udp_packets, c_udp_packets
  | c_syslog_packets, c_syslog_packets
  | c_api_packets, c_api_packets => true
  | _, _ => false
  end.

(** Addition of [__u64]. *)
Definition add64 (x v : Z) : Z := (x + v) mod 2 ^ 64.

(** [__sync_fetch_and_add(&stats->c, v)]: the counter [c] grows by [v]
    (modulo [2^64]), the others keep their value. *)
Definition sync_fetch_and_add (c : counter) (v : Z) (stats : xdp_stats) : xdp_stats :=
  let upd (d : counter) (x : Z) := if counter_eqb c d then add64 x v else x in
  {| packets_total := upd c_packets_total (packets_total stats);
     packets_allowed := upd c_packets_allowed (packets_allowed stats);
     packets_blocked := upd c_packets_blocked (packets_blocked stats);
     bytes_total := upd c_bytes_total (bytes_total stats);
     bytes_allowed := upd c_bytes_allowed (bytes_allowed stats);
     bytes_blocked := upd c_bytes_blocked (bytes_blocked stats);
     tcp_packets := upd c_tcp_packets (tcp_packets stats);
     udp_packets := upd c_udp_packets (udp_packets stats);
     syslog_packets := upd c_syslog_packets (syslog_packets stats);
     api_packets := upd c_api_packets (api_packets stats) |}.

(** The body of [update_stats] once the block has been found. *)
Definition update_stats_block
    (packet_size allowed is_tcp is_udp is_syslog is_api : Z)
    (stats : xdp_stats) : xdp_stats :=
  let stats := sync_fetch_and_add c_packets_total 1 stats in
  let stats := sync_fetch_and_add c_bytes_total packet_size stats in
  let stats :=
    if c_true allowed then
      let stats := sync_fetch_and_add c_packets_allowed 1 stats in
      sync_fetch_and_add c_bytes_allowed packet_size stats
    else
      let stats := sync_fetch_and_add c_packets_blocked 1 stats in
      sync_fetch_and_add c_bytes_blocked packet_size stats in
  if c_true is_tcp then
    let stats := sync_fetch_and_add c_tcp_packets 1 stats in
    if c_true is_api then sync_fetch_and_add c_api_packets 1 stats else stats
  else if c_true is_udp then
    let stats := sync_fetch_and_add c_udp_packets 1 stats in
    if c_true is_syslog then sync_fetch_and_add c_syslog_packets 1 stats else stats
  else stats.

(** [stats] points into the map, so the new block is the map's entry 0. *)
Definition update_stats (m : bpf_maps)
    (packet_size allowed is_tcp is_udp is_syslog is_api : Z) : bpf_maps :=
  let key := 0%nat in
  match bpf_map_lookup_elem (xdp_statistics m) key with
  | None => m
  | Some stats =>
      {| cidr_rules := cidr_rules m;
         allowed_ports := allowed_ports m;
         xdp_statistics :=
           <[key := update_stats_block packet_size allowed is_tcp is_udp
                      is_syslog is_api stats]> (xdp_statistics m) |}
  end.

(** ** [xdp_filter_func] *)

(** The locals of [xdp_filter_func] that are live after the transport
    header has been parsed. *)
Record locals : Set := {
  src_ip : Z;
  dest_port : Z;
  is_tcp : Z;
  is_udp : Z;
  is_syslog : Z;
  is_api : Z;
  packet_size : Z
}.

(** A block of the function either returns a verdict or falls through with
    the locals it has set. *)
Inductive flow (A : Type) : Type :=
  | Return (a : xdp_action)
  | Next (x : A).
Arguments Return {A} a.
Arguments Next {A} x.

(** Lines 119-177: the Ethernet, IPv4 and TCP/UDP headers. *)
Definition parse_headers (host : byte_order) (pkt : list byte) : flow locals :=
  let data_end := Z.of_nat (length pkt) in
  let data := 0 in
  let eth := data in
  if eth + sizeof_ethhdr >? data_end then Return XDP_PASS
  else if negb (load_u16 host pkt (eth_h_proto eth) =? bpf_htons host ETH_P_IP)
  then Return XDP_PASS
  else
    let ip := eth + sizeof_ethhdr in
    if ip + sizeof_iphdr >? data_end then Return XDP_PASS
    else if ip_ihl pkt ip <? 5 then Return XDP_DROP
    else
      let src_ip := load_u32 host pkt (ip_saddr ip) in
      let packet_size := data_end - data in
      if byte_at pkt (ip_protocol ip) =? IPPROTO_TCP then
        let tcp := ip + ip_ihl pkt ip * 4 in
        if tcp + sizeof_tcphdr >? data_end then Return XDP_DROP
        else
          let dest_port := bpf_ntohs host (load_u16 host pkt (l4_dest tcp)) in
          let is_api :=
            if (dest_port =? 80) || (dest_port =? 443)
               || (dest_port =? 8081) || (dest_port =? 8082)
            then 1 else 0 in
          Next {| src_ip := src_ip; dest_port := dest_port;
                  is_tcp := 1; is_udp := 0; is_syslog := 0; is_api := is_api;
                  packet_size := packet_size |}
      else if byte_at pkt (ip_protocol ip) =? IPPROTO_UDP then
        let udp := ip + ip_ihl pkt ip * 4 in
        if udp + sizeof_udphdr >? data_end then Return XDP_DROP
        else
          let dest_port := bpf_ntohs host (load_u16 host pkt (l4_dest udp)) in
          let is_syslog :=
            if (dest_port >=? 10000) && (dest_port <=? 11000) then 1 else 0 in
          Next {| src_ip := src_ip; dest_port := dest_port;
                  is_tcp := 0; is_udp := 1; is_syslog := is_syslog; is_api := 0;
                  packet_size := packet_size |}
      else Return XDP_PASS.

(** Lines 187-202: the scan of the CIDR table with [n] iterations left, at
    index [i]; the result is the final value of [ip_allowed]. *)
Fixpoint cidr_scan (n : nat) (i : nat) (rules : list cidr_rule)
    (src_ip dest_port : Z) : Z :=
  match n with
  | O => 0
  | S n' =>
      match bpf_map_lookup_elem rules i with
      | None => cidr_scan n' (S i) rules src_ip dest_port
      | Some rule =>
          if negb (c_true (enabled rule)) then
            cidr_scan n' (S i) rules src_ip dest_port
          else if negb (port rule =? 0) && negb (port rule =? dest_port) then
            cidr_scan n' (S i) rules src_ip dest_port
          else if c_true (check_cidr_match src_ip rule) then 1
          else cidr_scan n' (S i) rules src_ip dest_port
      end
  end.

(** Lines 179-210: the port gate, the CIDR scan and the verdict. *)
Definition filter_decision (m : bpf_maps) (l : locals) : xdp_action * bpf_maps :=
  if negb (c_true (check_port_allowed (allowed_ports m) (dest_port l))) then
    (XDP_DROP,
     update_stats m (packet_size l) 0 (is_tcp l) (is_udp l) (is_syslog l) (is_api l))
  else
    let ip_allowed :=
      cidr_scan MAX_CIDR_RULES 0 (cidr_rules m) (src_ip l) (dest_port l) in
    let m' :=
      update_stats m (packet_size l) ip_allowed
        (is_tcp l) (is_udp l) (is_syslog l) (is_api l) in
    if c_true ip_allowed then (XDP_PASS, m') else (XDP_DROP, m').

Definition xdp_filter_func (host : byte_order) (m : bpf_maps) (ctx : list byte)
    : xdp_action * bpf_maps :=
  match parse_headers host ctx with
  | Return a => (a, m)
  | Next l => filter_decision m l
  end.

(** A run of the filter over the frames of one execution context, in order
    of arrival: the maps after the last frame. *)
Definition process_all (host : byte_order) (m : bpf_maps) (pkts : list (list byte))
    : bpf_maps :=
  foldl (fun m pkt => snd (xdp_filter_func host m pkt)) m pkts.

(** ** The frame as the wire formats describe it

    These definitions restate, from the layout of Ethernet II, IPv4, TCP
    and UDP, what the specification calls a well-formed IPv4 TCP or UDP
    packet.  They do not depend on the host's byte order.  The lemmas on
    the header parser relate them to [parse_headers]. *)

Definition frame_len (pkt : list byte) : Z := Z.of_nat (length pkt).

(** Long enough for the Ethernet and the fixed IPv4 header, EtherType
    [08 00]. *)
Definition is_ipv4 (pkt : list byte) : bool :=
  (34 <=? frame_len pkt) && (byte_at pkt 12 =? 0x08) && (byte_at pkt 13 =? 0x00).

Definition wire_ihl (pkt : list byte) : Z := Z.land (byte_at pkt 14) 0x0f.
Definition wire_protocol (pkt : list byte) : Z := byte_at pkt 23.

(** Offset of the transport header: after [ihl] 32-bit words of IPv4. *)
Definition wire_l4 (pkt : list byte) : Z := 14 + 4 * wire_ihl pkt.

(** Size of the fixed transport header the filter asks for. *)
Definition l4_size (protocol : Z) : Z :=
  if protocol =? 6 then 20 else if protocol =? 17 then 8 else 0.

Definition is_tcp_or_udp (pkt : list byte) : bool :=
  (wire_protocol pkt =? 6) || (wire_protocol pkt =? 17).

(** The buffer ends before the end of the declared TCP or UDP header. *)
Definition l4_truncated (pkt : list byte) : bool :=
  is_tcp_or_udp pkt && (frame_len pkt <? wire_l4 pkt + l4_size (wire_protocol pkt)).

(** Destination port: big-endian, two bytes into the transport header. *)
Definition wire_dest_port (pkt : list byte) : Z :=
  byte_at pkt (wire_l4 pkt + 2) * 256 + byte_at pkt (wire_l4 pkt + 3).

(** A well-formed IPv4 TCP or UDP packet: the frames that reach the port
    gate and a statistics update. *)
Definition well_formed (pkt : list byte) : bool :=
  is_ipv4 pkt && (5 <=? wire_ihl pkt) && is_tcp_or_udp pkt && negb (l4_truncated pkt).

Definition api_port (p : Z) : bool :=
  (p =? 80) || (p =? 443) || (p =? 8081) || (p =? 8082).

Definition syslog_port (p : Z) : bool := (10000 <=? p) && (p <=? 11000).

(** Source address: the four bytes at offset 12 of the IPv4 header, as the
    host loads them. *)
Definition wire_src_ip (host : byte_order) (pkt : list byte) : Z :=
  load_u32 host pkt 26.

(** The locals the parser leaves for a well-formed packet. *)
Definition wire_locals (host : byte_order) (pkt : list byte) : locals :=
  {| src_ip := wire_src_ip host pkt;
     dest_port := wire_dest_port pkt;
     is_tcp := Z.b2z (wire_protocol pkt =? 6);
     is_udp := Z.b2z (wire_protocol pkt =? 17);
     is_syslog := Z.b2z ((wire_protocol pkt =? 17) && syslog_port (wire_dest_port pkt));
     is_api := Z.b2z ((wire_protocol pkt =? 6) && api_port (wire_dest_port pkt));
     packet_size := frame_len pkt |}.

(** The parser, case by case, in the words of the frame-parser contract. *)
Definition parse_contract (host : byte_order) (pkt : list byte) : flow locals :=
  if negb (is_ipv4 pkt) then Return XDP_PASS
  else if wire_ihl pkt <? 5 then Return XDP_DROP
  else if negb (is_tcp_or_udp pkt) then Return XDP_PASS
  else if l4_truncated pkt then Return XDP_DROP
  else Next (wire_locals host pkt).

(** End of the headers the filter looks at: Ethernet, IPv4 (at least its
    fixed 20 bytes) and the fixed TCP or UDP header. *)
Definition headers_end (pkt : list byte) : Z :=
  Z.max 34 (wire_l4 pkt + l4_size (wire_protocol pkt)).

(** Two frames of one length that carry the same headers. *)
Definition same_headers (pkt1 pkt2 : list byte) : Prop :=
  length pkt1 = length pkt2 /\
  take (Z.to_nat (headers_end pkt1)) pkt1 = take (Z.to_nat (headers_end pkt1)) pkt2.

(** ** The rule tables as the specification describes them *)

(** A CIDR slot matches a packet: enabled, wildcard or equal port, and the
    masked source address equals the masked network. *)
Definition slot_matches (src dport : Z) (rule : cidr_rule) : bool :=
  c_true (enabled rule)
  && ((port rule =? 0) || (port rule =? dport))
  && (Z.land src (mask rule) =? Z.land (network rule) (mask rule)).

(** Slot [i] of the table holds a rule that matches. *)
Definition matches_at (rules : list cidr_rule) (src dport : Z) (i : nat) : Prop :=
  exists rule, rules !! i = Some rule /\ slot_matches src dport rule = true.

(** The same maps with another CIDR table. *)
Definition with_cidr_rules (rules : list cidr_rule) (m : bpf_maps) : bpf_maps :=
  {| cidr_rules := rules;
     allowed_ports := allowed_ports m;
     xdp_statistics := xdp_statistics m |}.


(** The statistics block at load time. *)
Definition stats_zero : xdp_stats :=
  {| packets_total := 0; packets_allowed := 0; packets_blocked := 0;
     bytes_total := 0; bytes_allowed := 0; bytes_blocked := 0;
     tcp_packets := 0; udp_packets := 0; syslog_packets := 0; api_packets := 0 |}.

(** Total of the frame lengths of a run. *)
Definition total_len (pkts : list (list byte)) : Z :=
  foldr (fun pkt acc => frame_len pkt + acc) 0 pkts.

(** ** Concrete frames and tables used by the examples *)

Definition byte_of_Z (z : Z) : byte :=
  match Byte.of_N (Z.to_N z) with
  | Some b => b
  | None => x00
  end.

Definition frame_of (l : list Z) : list byte := map byte_of_Z l.

(** Ethernet II header with EtherType IPv4. *)
Definition eth_ipv4 : list Z := [0; 0; 0; 0; 0; 1; 0; 0; 0; 0; 0; 2; 0x08; 0x00].

(** Fixed IPv4 header: first byte (version and IHL), protocol, source
    address [a.b.c.d]. *)
Definition ipv4_hdr (vihl protocol a b c d : Z) : list Z :=
  [vihl; 0; 0; 40; 0; 0; 0; 0; 64; protocol; 0; 0; a; b; c; d; 172; 16; 0; 1].

(** Start of a transport header with destination port [dport], then [n]
    more bytes, all equal to [fill]. *)
Definition l4_hdr (dport : Z) (n : nat) (fill : Z) : list Z :=
  [0xc0; 0x01; dport / 256; dport mod 256] ++ replicate n fill.

(** An Ethernet frame with an IPv4 header and the start of a transport
    header. *)
Definition ip_frame (vihl protocol a b c d dport : Z) (n : nat) (fill : Z)
    : list byte :=
  frame_of (eth_ipv4 ++ ipv4_hdr vihl protocol a b c d ++ l4_hdr dport n fill).

(** A TCP segment with a complete 20-byte header and no payload. *)
Definition tcp_frame (a b c d dport : Z) : list byte :=
  ip_frame 0x45 6 a b c d dport 16 0.

(** A UDP datagram with a complete 8-byte header and no payload. *)
Definition udp_frame (a b c d dport : Z) : list byte :=
  ip_frame 0x45 17 a b c d dport 4 0.

(** A TCP segment cut after 8 bytes of its header. *)
Definition short_tcp_frame : list byte := ip_frame 0x45 6 10 0 0 5 22 4 0.

(** A TCP segment whose IPv4 header declares 4 words; the buffer holds the
    20 bytes of TCP header after them. *)
Definition ihl4_tcp_frame : list byte := ip_frame 0x44 6 10 0 0 5 22 16 0.

(** ICMP (protocol 1) with a regular header and with a header of 4 words. *)
Definition icmp_frame : list byte := ip_frame 0x45 1 10 0 0 5 0 4 0.
Definition ihl4_icmp_frame : list byte := ip_frame 0x44 1 10 0 0 5 0 4 0.

(** A frame followed by payload bytes. *)
Definition with_payload (frame : list byte) (payload : list Z) : list byte :=
  frame ++ frame_of payload.

(** The tables of the specification's examples: allow-list [22, 0, ...],
    slot 0 of the CIDR table allowing 10.0.0.0/24 on any port (fields in
    network byte order, read on a little-endian host). *)
Definition rule_10_0_0 : cidr_rule :=
  {| network := 0x0000000a; mask := 0x00ffffff; port := 0; enabled := 1; reserved := 0 |}.

Definition rule_unset : cidr_rule :=
  {| network := 0; mask := 0; port := 0; enabled := 0; reserved := 0 |}.

Definition example_maps : bpf_maps :=
  {| cidr_rules := rule_10_0_0 :: replicate 1023 rule_unset;
     allowed_ports := 22 :: replicate 63 0;
     xdp_statistics := [stats_zero] |}.

(** The same tables as a big-endian host reads them. *)
Definition rule_10_0_0_be : cidr_rule :=
  {| network := 0x0a000000; mask := 0xffffff00; port := 0; enabled := 1; reserved := 0 |}.

Definition example_maps_be : bpf_maps :=
  {| cidr_rules := rule_10_0_0_be :: replicate 1023 rule_unset;
     allowed_ports := 22 :: replicate 63 0;
     xdp_statistics := [stats_zero] |}.

(** ** The reads of the parser, checked against the buffer

    The same parser with every load of a header field made fallible: a
    load outside [[data, data_end)] yields [None], which stands for the
    access the in-kernel verifier rejects. *)

Definition read_u8 (pkt : list byte) (off : Z) : option Z :=
  if off <? 0 then None else byte_val <$> pkt !! Z.to_nat off.

Definition read_u16 (host : byte_order) (pkt : list byte) (off : Z) : option Z :=
  b0 ← read_u8 pkt off;
  b1 ← read_u8 pkt (off + 1);
  Some (match host with
        | LittleEndian => Z.lor b0 (Z.shiftl b1 8)
        | BigEndian => Z.lor (Z.shiftl b0 8) b1
        end).

Definition read_u32 (host : byte_order) (pkt : list byte) (off : Z) : option Z :=
  h0 ← read_u16 host pkt off;
  h1 ← read_u16 host pkt (off + 2);
  Some (match host with
        | LittleEndian => Z.lor h0 (Z.shiftl h1 16)
        | BigEndian => Z.lor (Z.shiftl h0 16) h1
        end).

(** Lines 119-177 with checked loads. *)
Definition parse_headers_checked (host : byte_order) (pkt : list byte)
    : option (flow locals) :=
  let data_end := Z.of_nat (length pkt) in
  let data := 0 in
  let eth := data in
  if eth + sizeof_ethhdr >? data_end then Some (Return XDP_PASS)
  else
    h_proto ← read_u16 host pkt (eth_h_proto eth);
    if negb (h_proto =? bpf_htons host ETH_P_IP) then Some (Return XDP_PASS)
    else
      let ip := eth + sizeof_ethhdr in
      if ip + sizeof_iphdr >? data_end then Some (Return XDP_PASS)
      else
        vihl ← read_u8 pkt ip;
        let ihl := Z.land vihl 0x0f in
        if ihl <? 5 then Some (Return XDP_DROP)
        else
          saddr ← read_u32 host pkt (ip_saddr ip);
          let packet_size := data_end - data in
          protocol ← read_u8 pkt (ip_protocol ip);
          if protocol =? IPPROTO_TCP then
            let tcp := ip + ihl * 4 in
            if tcp + sizeof_tcphdr >? data_end then Some (Return XDP_DROP)
            else
              dest ← read_u16 host pkt (l4_dest tcp);
              let dest_port := bpf_ntohs host dest in
              let is_api :=
                if (dest_port =? 80) || (dest_port =? 443)
                   || (dest_port =? 8081) || (dest_port =? 8082)
                then 1 else 0 in
              Some (Next {| src_ip := saddr; dest_port := dest_port;
                            is_tcp := 1; is_udp := 0; is_syslog := 0;
                            is_api := is_api; packet_size := packet_size |})
          else if protocol =? IPPROTO_UDP then
            let udp := ip + ihl * 4 in
            if udp + sizeof_udphdr >? data_end then Some (Return XDP_DROP)
            else
              dest ← read_u16 host pkt (l4_dest udp);
              let dest_port := bpf_ntohs host dest in
              let is_syslog :=
                if (dest_port >=? 10000) && (dest_port <=? 11000) then 1 else 0 in
              Some (Next {| src_ip := saddr; dest_port := dest_port;
                            is_tcp := 0; is_udp := 1; is_syslog := is_syslog;
                            is_api := 0; packet_size := packet_size |})
          else Some (Return XDP_PASS).

(** ** Further notions used by the properties of the whole filter *)

(** The value of [ip_allowed] that [filter_decision] passes to
    [update_stats]: 0 at a closed port gate, the result of the CIDR scan
    otherwise. *)
Definition decision_flag (m : bpf_maps) (l : locals) : Z :=
  if negb (c_true (check_port_allowed (allowed_ports m) (dest_port l))) then 0
  else cidr_scan MAX_CIDR_RULES 0 (cidr_rules m) (src_ip l) (dest_port l).

(** The same maps with another statistics map. *)
Definition with_statistics (stats : list xdp_stats) (m : bpf_maps) : bpf_maps :=
  {| cidr_rules := cidr_rules m;
     allowed_ports := allowed_ports m;
     xdp_statistics := stats |}.

(** The [__u32] a host reads from four bytes of memory, [b0] at the lowest
    address (for a field in network byte order [b0] is the first octet of
    the address). *)
Definition host_u32 (host : byte_order) (b0 b1 b2 b3 : Z) : Z :=
  match host with
  | LittleEndian => b0 + b1 * 2 ^ 8 + b2 * 2 ^ 16 + b3 * 2 ^ 24
  | BigEndian => b3 + b2 * 2 ^ 8 + b1 * 2 ^ 16 + b0 * 2 ^ 24
  end.

(** A rule whose [network] and [mask] are the given octets in memory. *)
Definition rule_of_octets (host : byte_order) (n0 n1 n2 n3 m0 m1 m2 m3 : Z)
    (rule_port rule_enabled : Z) : cidr_rule :=
  {| network := host_u32 host n0 n1 n2 n3;
     mask := host_u32 host m0 m1 m2 m3;
     port := rule_port; enabled := rule_enabled; reserved := 0 |}.

(** A frame cut in the middle of its Ethernet header, and maps without a
    statistics slot. *)
Definition runt_frame : list byte := frame_of [0; 0; 0; 0; 0; 1].

Definition maps_without_stats : bpf_maps :=
  with_statistics [] example_maps.

(** * Properties *)

(** ** Bytes and byte order *)

Lemma byte_val_range (b : byte) : 0 <= byte_val b < 256.
Proof.
  unfold byte_val. pose proof (Byte.to_N_bounded b). lia.
Qed.

Lemma byte_at_range (pkt : list byte) (off : Z) : 0 <= byte_at pkt off < 256.
Proof.
  unfold byte_at. destruct (pkt !! Z.to_nat off); [apply byte_val_range | lia].
Qed.

Lemma lor_shiftl_low (a b n : Z) :
  0 <= n -> 0 <= a < 2 ^ n -> Z.lor a (Z.shiftl b n) = a + b * 2 ^ n.
Proof.
  intros Hn Ha.
  rewrite Z.shiftl_mul_pow2 by lia.
  rewrite <- Z.lxor_lor, <- Z.add_nocarry_lxor; try reflexivity.
  all: rewrite <- Z.shiftl_mul_pow2 by lia.
  all: apply Z.bits_inj'; intros k Hk; rewrite Z.land_spec, Z.bits_0.
  all: destruct (Z.lt_ge_cases k n).
  all: try (rewrite Z.shiftl_spec_low by lia; apply andb_false_r).
  all: rewrite <- (Z.mod_small a (2 ^ n)) by lia.
  all: rewrite Z.mod_pow2_bits_high by lia; reflexivity.
Qed.

Lemma load_u16_value (host : byte_order) (pkt : list byte) (off : Z) :
  load_u16 host pkt off =
    match host with
    | LittleEndian => byte_at pkt off + byte_at pkt (off + 1) * 256
    | BigEndian => byte_at pkt (off + 1) + byte_at pkt off * 256
    end.
Proof.
  pose proof (byte_at_range pkt off). pose proof (byte_at_range pkt (off + 1)).
  destruct host; unfold load_u16.
  - now rewrite (lor_shiftl_low _ _ 8) by lia.
  - rewrite Z.lor_comm. now rewrite (lor_shiftl_low _ _ 8) by lia.
Qed.

Lemma swab16_value (lo hi : Z) :
  0 <= lo < 256 -> 0 <= hi < 256 -> swab16 (lo + hi * 256) = hi + lo * 256.
Proof.
  intros Hlo Hhi. unfold swab16.
  rewrite Z.shiftr_land.
  change 0x00ff with (Z.ones 8). change (Z.shiftr 0xff00 8) with (Z.ones 8).
  rewrite !Z.land_ones by lia.
  rewrite Z.shiftr_div_pow2 by lia.
  change (2 ^ 8) with 256.
  replace ((lo + hi * 256) mod 256) with lo
    by (rewrite Z.mod_add by lia; symmetry; apply Z.mod_small; lia).
  replace ((lo + hi * 256) / 256) with hi
    by (rewrite Z.div_add by lia; rewrite Z.div_small by lia; lia).
  rewrite Z.mod_small by lia.
  rewrite Z.lor_comm. now rewrite (lor_shiftl_low _ _ 8) by lia.
Qed.

(** The destination port is the big-endian 16-bit number on the wire,
    whatever the host's byte order. *)
Lemma ntohs_load_u16 (host : byte_order) (pkt : list byte) (off : Z) :
  bpf_ntohs host (load_u16 host pkt off) =
    byte_at pkt off * 256 + byte_at pkt (off + 1).
Proof.
  pose proof (byte_at_range pkt off). pose proof (byte_at_range pkt (off + 1)).
  rewrite load_u16_value. destruct host; simpl.
  - rewrite swab16_value by lia. lia.
  - lia.
Qed.

(** The EtherType test accepts exactly the wire bytes [08 00]. *)
Lemma ethertype_test (host : byte_order) (pkt : list byte) (off : Z) :
  (load_u16 host pkt off =? bpf_htons host ETH_P_IP) =
    (byte_at pkt off =? 0x08) && (byte_at pkt (off + 1) =? 0x00).
Proof.
  pose proof (byte_at_range pkt off). pose proof (byte_at_range pkt (off + 1)).
  rewrite load_u16_value.
  destruct host; simpl bpf_htons;
    [change (swab16 ETH_P_IP) with 8 | change ETH_P_IP with 2048].
  all: destruct (byte_at pkt off =? 8) eqn:E1;
       destruct (byte_at pkt (off + 1) =? 0) eqn:E2; simpl; lia.
Qed.

(** ** The header parser *)

Lemma c_true_b2z (b : bool) : c_true (Z.b2z b) = b.
Proof. now destruct b. Qed.

(** [parse_headers] implements the frame-parser contract on every buffer and
    on both byte orders. *)
Lemma parse_headers_contract (host : byte_order) (pkt : list byte) :
  parse_headers host pkt = parse_contract host pkt.
Proof.
  unfold parse_headers, parse_contract, is_ipv4, l4_truncated, is_tcp_or_udp,
    wire_locals, ip_ihl, eth_h_proto, ip_protocol, ip_saddr, l4_dest,
    sizeof_ethhdr, sizeof_iphdr, sizeof_tcphdr, sizeof_udphdr,
    IPPROTO_TCP, IPPROTO_UDP.
  fold (frame_len pkt).
  rewrite !ntohs_load_u16, ethertype_test.
  change (0 + 14 + 9) with 23.
  change (load_u32 host pkt (0 + 14 + 12)) with (wire_src_ip host pkt).
  change (0 + 12 + 1) with 13. change (0 + 12) with 12.
  change (0 + 14 + 20) with 34. change (0 + 14) with 14.
  fold (wire_ihl pkt).
  fold (wire_protocol pkt).
  replace (14 + wire_ihl pkt * 4) with (wire_l4 pkt) by (unfold wire_l4; lia).
  replace (wire_l4 pkt + 2 + 1) with (wire_l4 pkt + 3) by lia.
  fold (wire_dest_port pkt).
  rewrite !Z.gtb_ltb, Z.sub_0_r.
  destruct (frame_len pkt <? 14) eqn:E14.
  { replace (34 <=? frame_len pkt) with false by lia. reflexivity. }
  destruct (byte_at pkt 12 =? 8) eqn:E12;
    [|rewrite ?andb_true_r, ?andb_false_r; reflexivity].
  destruct (byte_at pkt 13 =? 0) eqn:E13;
    [|rewrite ?andb_true_r, ?andb_false_r; reflexivity].
  simpl negb at 1.
  destruct (frame_len pkt <? 34) eqn:E34.
  { replace (34 <=? frame_len pkt) with false by lia. reflexivity. }
  replace (34 <=? frame_len pkt) with true by lia. simpl.
  destruct (wire_ihl pkt <? 5); [reflexivity|].
  unfold l4_size.
  destruct (wire_protocol pkt =? 6) eqn:Etcp; simpl.
  { destruct (frame_len pkt <? wire_l4 pkt + 20); [reflexivity|].
    unfold api_port.
    replace (wire_protocol pkt =? 17) with false by lia.
    now destruct (_ || _). }
  destruct (wire_protocol pkt =? 17) eqn:Eudp; simpl; [|reflexivity].
  destruct (frame_len pkt <? wire_l4 pkt + 8); [reflexivity|].
  unfold syslog_port. rewrite Z.geb_leb.
  now destruct (_ && _).
Qed.

Lemma parse_headers_well_formed (host : byte_order) (pkt : list byte) :
  well_formed pkt = true -> parse_headers host pkt = Next (wire_locals host pkt).
Proof.
  rewrite parse_headers_contract. unfold parse_contract, well_formed.
  intros H. apply andb_prop in H as [H Htr]. apply andb_prop in H as [H Hl4].
  apply andb_prop in H as [Hip Hihl].
  rewrite Hip, Hl4. simpl.
  replace (wire_ihl pkt <? 5) with false by lia.
  now destruct (l4_truncated pkt).
Qed.

Lemma parse_headers_Next (host : byte_order) (pkt : list byte) (l : locals) :
  parse_headers host pkt = Next l ->
  well_formed pkt = true /\ l = wire_locals host pkt.
Proof.
  rewrite parse_headers_contract. unfold parse_contract, well_formed.
  destruct (is_ipv4 pkt); simpl; [|discriminate].
  destruct (wire_ihl pkt <? 5) eqn:E; [discriminate|].
  destruct (is_tcp_or_udp pkt); simpl; [|discriminate].
  destruct (l4_truncated pkt); [discriminate|].
  intros [= <-]. split; [|reflexivity].
  replace (5 <=? wire_ihl pkt) with true by lia. reflexivity.
Qed.

(** The well-formed packets are those the parser hands to the port gate. *)
Lemma well_formed_iff (host : byte_order) (pkt : list byte) :
  well_formed pkt = true <-> exists l : locals, parse_headers host pkt = Next l.
Proof.
  split.
  - intros Hwf. exists (wire_locals host pkt).
    now apply parse_headers_well_formed.
  - intros [l Hl]. now apply parse_headers_Next in Hl.
Qed.

(** ** The port allow-list *)

Section PortAllowList.

Variable ports : list Z.
Variable p : Z.

Lemma check_port_allowed_loop_bool (n i : nat) :
  check_port_allowed_loop n i ports p = 1 \/
  check_port_allowed_loop n i ports p = 0.
Proof.
  revert i. induction n as [|n IH]; intros i; simpl; [now right|].
  unfold bpf_map_lookup_elem. destruct (ports !! i) as [a|]; [|now right].
  destruct (a =? 0); [now right|].
  destruct (a =? p); [now left|]. apply IH.
Qed.

(** The loop started at index [i] with [n] iterations left answers 1
    exactly when a slot in [[i, i + n)] holds [p], [p] is not the
    sentinel, and no slot from [i] up to there holds the sentinel. *)
Lemma check_port_allowed_loop_1 (n i : nat) :
  check_port_allowed_loop n i ports p = 1 <->
  p <> 0 /\
  exists k : nat, (i <= k < i + n)%nat /\ ports !! k = Some p /\
    forall j : nat, (i <= j < k)%nat -> ports !! j <> Some 0.
Proof.
  revert i. induction n as [|n IH]; intros i; simpl.
  { split; [discriminate|]. intros (_ & k & Hk & _). lia. }
  unfold bpf_map_lookup_elem. destruct (ports !! i) as [a|] eqn:Hi.
  - destruct (a =? 0) eqn:Ha0.
    { split; [discriminate|]. intros (Hp & k & Hk & Hkp & Hz).
      apply Z.eqb_eq in Ha0. subst a.
      destruct (decide (k = i)) as [->|Hne]; [congruence|].
      exfalso. apply (Hz i); [lia|assumption]. }
    destruct (a =? p) eqn:Hap.
    { apply Z.eqb_eq in Hap. subst a. split; [|reflexivity]. intros _.
      split; [lia|]. exists i. split; [lia|]. split; [assumption|]. lia. }
    rewrite IH. split; intros (Hp & k & Hk & Hkp & Hz); (split; [assumption|]);
      exists k.
    + split; [lia|]. split; [assumption|]. intros j Hj.
      destruct (decide (j = i)) as [->|Hne].
      * rewrite Hi. intros [= ->]. discriminate.
      * apply Hz. lia.
    + assert (k <> i) by (intros ->; rewrite Hi in Hkp; injection Hkp; lia).
      split; [lia|]. split; [assumption|]. intros j Hj. apply Hz. lia.
  - split; [discriminate|]. intros (_ & k & Hk & Hkp & _).
    apply lookup_lt_Some in Hkp. apply lookup_ge_None in Hi. lia.
Qed.

(** The loop reads only the slots up to the first sentinel or the first
    missing slot, and never past its bound. *)
Lemma check_port_allowed_loop_ext (ports' : list Z) (n i : nat) :
  (forall j : nat, (i <= j < i + n)%nat ->
     (forall k : nat, (i <= k < j)%nat ->
        exists a, ports !! k = Some a /\ a <> 0) ->
     ports' !! j = ports !! j) ->
  check_port_allowed_loop n i ports' p = check_port_allowed_loop n i ports p.
Proof.
  revert i. induction n as [|n IH]; intros i Hag; simpl; [reflexivity|].
  unfold bpf_map_lookup_elem. rewrite (Hag i) by lia.
  destruct (ports !! i) as [a|] eqn:Hi; [|reflexivity].
  destruct (a =? 0) eqn:Ha0; [reflexivity|].
  destruct (a =? p); [reflexivity|].
  apply IH. intros j Hj Hbefore. apply Hag; [lia|].
  intros k Hk. destruct (decide (k = i)) as [->|Hne].
  - exists a. split; [assumption|lia].
  - apply Hbefore. lia.
Qed.

End PortAllowList.

Lemma lookup_of_take {A : Type} (l l' : list A) (n j : nat) :
  take n l' = take n l -> (j < n)%nat -> l' !! j = l !! j.
Proof.
  intros Heq Hj.
  rewrite <- (lookup_take_lt l' n j), <- (lookup_take_lt l n j) by assumption.
  now rewrite Heq.
Qed.

(** C6 (amended): [check_port_allowed ports p] answers 1 (true) iff [p] is
    not the sentinel 0 and some index [k < 64] holds an entry equal to [p]
    while no index [j < k] holds the sentinel 0; otherwise it answers 0.  A
    0 at index [k] makes every entry after [k] unreachable (any table with
    the same slots [0..k] gets the same answer), and the scan never looks
    past the first 64 slots. *)
Theorem check_port_allowed_spec (ports : list Z) (p : Z) :
  (check_port_allowed ports p = 1 <->
     p <> 0 /\
     exists k : nat, (k < MAX_PORT_RULES)%nat /\ ports !! k = Some p /\
       forall j : nat, (j < k)%nat -> ports !! j <> Some 0)
  /\ (check_port_allowed ports p = 1 \/ check_port_allowed ports p = 0)
  /\ (forall (k : nat) (ports' : list Z),
        ports !! k = Some 0 ->
        take (S k) ports' = take (S k) ports ->
        check_port_allowed ports' p = check_port_allowed ports p)
  /\ (forall ports' : list Z,
        take MAX_PORT_RULES ports' = take MAX_PORT_RULES ports ->
        check_port_allowed ports' p = check_port_allowed ports p).
Proof.
  unfold check_port_allowed. split; [split|split; [|split]].
  - intros H. apply check_port_allowed_loop_1 in H as (Hp & k & Hk & Hkp & Hz).
    split; [assumption|].
    exists k. split; [lia|]. split; [assumption|]. intros j Hj. apply Hz. lia.
  - intros (Hp & k & Hk & Hkp & Hz). apply check_port_allowed_loop_1.
    split; [assumption|]. exists k. split; [lia|]. split; [assumption|].
    intros j Hj. apply Hz. lia.
  - apply check_port_allowed_loop_bool.
  - intros k ports' Hk Htake. apply check_port_allowed_loop_ext.
    intros j Hj Hbefore. destruct (le_lt_dec j k) as [Hle|Hgt].
    + apply (lookup_of_take _ _ (S k)); [assumption|lia].
    + destruct (Hbefore k) as (a & Ha & Hnz); [lia|]. congruence.
  - intros ports' Htake. apply check_port_allowed_loop_ext.
    intros j Hj _. apply (lookup_of_take _ _ MAX_PORT_RULES); [assumption|lia].
Qed.

(** On the example allow-list [22, 0, ...]: entries after the sentinel are
    not seen, and 22 is allowed. *)
Lemma check_port_allowed_spec_witness :
  (22 :: 0 :: replicate 62 10500) !! 1%nat = Some 0 /\
  check_port_allowed (22 :: 0 :: replicate 62 10500) 10500 =
    check_port_allowed (allowed_ports example_maps) 10500 /\
  check_port_allowed (22 :: 0 :: replicate 62 10500) 22 = 1.
Proof.
  destruct (check_port_allowed_spec (allowed_ports example_maps) 10500)
    as (_ & _ & Hsentinel & _).
  destruct (check_port_allowed_spec (22 :: 0 :: replicate 62 10500) 22)
    as (Hiff & _).
  split; [reflexivity|]. split.
  - exact (Hsentinel 1%nat (22 :: 0 :: replicate 62 10500) eq_refl eq_refl).
  - apply Hiff. split; [discriminate|]. exists 0%nat.
    split; [apply Nat.lt_0_succ|]. split; [reflexivity|].
    intros j Hj. inversion Hj.
Defined.

(** C6, as stated, fails for the port 0 on the allow-list of a freshly
    loaded program (64 slots, all 0): index 0 holds an entry equal to the
    port and no earlier index holds the sentinel, yet the answer is 0. *)
Lemma check_port_allowed_zero_counterexample :
  (exists k : nat, (k < MAX_PORT_RULES)%nat /\
     replicate MAX_PORT_RULES 0 !! k = Some 0 /\
     forall j : nat, (j < k)%nat -> replicate MAX_PORT_RULES 0 !! j <> Some 0)
  /\ check_port_allowed (replicate MAX_PORT_RULES 0) 0 = 0
  /\ check_port_allowed (replicate MAX_PORT_RULES 0) 0 <> 1.
Proof.
  split; [|split; [reflexivity|discriminate]].
  exists 0%nat. split; [unfold MAX_PORT_RULES; lia|]. split; [reflexivity|].
  intros j Hj. lia.
Qed.

(** ** The CIDR rule table *)

Section CidrTable.

Variable src dport : Z.

(** The three tests of the loop body together are [slot_matches]. *)
Lemma cidr_scan_Some (rules : list cidr_rule) (n i : nat) (rule : cidr_rule) :
  rules !! i = Some rule ->
  cidr_scan (S n) i rules src dport =
    if slot_matches src dport rule then 1
    else cidr_scan n (S i) rules src dport.
Proof.
  intros Hi. simpl. unfold bpf_map_lookup_elem. rewrite Hi.
  unfold slot_matches, check_cidr_match.
  destruct (c_true (enabled rule)); simpl; [|reflexivity].
  destruct (port rule =? 0); simpl.
  - rewrite c_true_b2z. now destruct (_ =? _).
  - destruct (port rule =? dport); simpl; [|reflexivity].
    rewrite c_true_b2z. now destruct (_ =? _).
Qed.

Lemma cidr_scan_None (rules : list cidr_rule) (n i : nat) :
  rules !! i = None ->
  cidr_scan (S n) i rules src dport = cidr_scan n (S i) rules src dport.
Proof.
  intros Hi. simpl. unfold bpf_map_lookup_elem. now rewrite Hi.
Qed.

Lemma cidr_scan_bool (rules : list cidr_rule) (n i : nat) :
  cidr_scan n i rules src dport = 1 \/ cidr_scan n i rules src dport = 0.
Proof.
  revert i. induction n as [|n IH]; intros i; [now right|].
  destruct (rules !! i) as [rule|] eqn:Hi.
  - rewrite (cidr_scan_Some _ _ _ _ Hi).
    destruct (slot_matches src dport rule); [now left|apply IH].
  - rewrite (cidr_scan_None _ _ _ Hi). apply IH.
Qed.

(** The scan of the slots [[i, i + n)] sets [ip_allowed] exactly when one
    of them matches. *)
Lemma cidr_scan_1 (rules : list cidr_rule) (n i : nat) :
  cidr_scan n i rules src dport = 1 <->
  exists k : nat, (i <= k < i + n)%nat /\ matches_at rules src dport k.
Proof.
  revert i. induction n as [|n IH]; intros i.
  { simpl. split; [discriminate|]. intros (k & Hk & _). lia. }
  destruct (rules !! i) as [rule|] eqn:Hi.
  - rewrite (cidr_scan_Some _ _ _ _ Hi).
    destruct (slot_matches src dport rule) eqn:Hm.
    + split; [|reflexivity]. intros _. exists i. split; [lia|].
      exists rule. now split.
    + rewrite IH. split; intros (k & Hk & Hmk); exists k; (split; [|assumption]).
      * lia.
      * assert (k <> i); [|lia]. intros ->.
        destruct Hmk as (r & Hr & Hrm). congruence.
  - rewrite (cidr_scan_None _ _ _ Hi), IH.
    split; intros (k & Hk & Hmk); exists k; (split; [|assumption]).
    + lia.
    + assert (k <> i); [|lia]. intros ->.
      destruct Hmk as (r & Hr & _). congruence.
Qed.

Lemma cidr_scan_0 (rules : list cidr_rule) (n i : nat) :
  cidr_scan n i rules src dport = 0 <->
  forall k : nat, (i <= k < i + n)%nat -> ~ matches_at rules src dport k.
Proof.
  split.
  - intros H0 k Hk Hm.
    assert (cidr_scan n i rules src dport = 1) as H1
      by (apply cidr_scan_1; eauto).
    congruence.
  - intros Hno. destruct (cidr_scan_bool rules n i) as [H1|H0]; [|assumption].
    apply cidr_scan_1 in H1 as (k & Hk & Hm). now destruct (Hno k Hk).
Qed.

End CidrTable.

(** ** The statistics block *)

Lemma add64_range (x v : Z) : 0 <= add64 x v < 2 ^ 64.
Proof. unfold add64. apply Z.mod_pos_bound. lia. Qed.

(** A counter that has been incremented has changed. *)
Lemma add64_1_neq (x : Z) : add64 x 1 <> x.
Proof.
  unfold add64. change (2 ^ 64) with 18446744073709551616.
  intros H. pose proof (Z.mod_pos_bound (x + 1) 18446744073709551616).
  Z.div_mod_to_equations. lia.
Qed.

Lemma add64_mod (x v : Z) : add64 (x mod 2 ^ 64) v = (x + v) mod 2 ^ 64.
Proof. unfold add64. now rewrite Z.add_mod_idemp_l by lia. Qed.

(** The block [update_stats] leaves, counter by counter. *)
Lemma update_stats_block_eq (size allowed tcp udp syslog api : Z) (st : xdp_stats) :
  update_stats_block size allowed tcp udp syslog api st =
    {| packets_total := add64 (packets_total st) 1;
       packets_allowed :=
         if c_true allowed then add64 (packets_allowed st) 1 else packets_allowed st;
       packets_blocked :=
         if c_true allowed then packets_blocked st else add64 (packets_blocked st) 1;
       bytes_total := add64 (bytes_total st) size;
       bytes_allowed :=
         if c_true allowed then add64 (bytes_allowed st) size else bytes_allowed st;
       bytes_blocked :=
         if c_true allowed then bytes_blocked st else add64 (bytes_blocked st) size;
       tcp_packets :=
         if c_true tcp then add64 (tcp_packets st) 1 else tcp_packets st;
       udp_packets :=
         if negb (c_true tcp) && c_true udp
         then add64 (udp_packets st) 1 else udp_packets st;
       syslog_packets :=
         if negb (c_true tcp) && c_true udp && c_true syslog
         then add64 (syslog_packets st) 1 else syslog_packets st;
       api_packets :=
         if c_true tcp && c_true api
         then add64 (api_packets st) 1 else api_packets st |}.
Proof.
  unfold update_stats_block. destruct st.
  destruct (c_true allowed), (c_true tcp), (c_true udp), (c_true syslog),
    (c_true api); reflexivity.
Qed.

Lemma update_stats_lookup (m : bpf_maps) (st : xdp_stats)
    (size allowed tcp udp syslog api : Z) :
  xdp_statistics m !! 0%nat = Some st ->
  xdp_statistics (update_stats m size allowed tcp udp syslog api) !! 0%nat =
    Some (update_stats_block size allowed tcp udp syslog api st).
Proof.
  intros Hst. unfold update_stats, bpf_map_lookup_elem. rewrite Hst. simpl.
  apply list_lookup_insert_eq. now apply lookup_lt_Some in Hst.
Qed.

(** [update_stats] leaves the rule tables alone. *)
Lemma update_stats_tables (m : bpf_maps) (size allowed tcp udp syslog api : Z) :
  cidr_rules (update_stats m size allowed tcp udp syslog api) = cidr_rules m /\
  allowed_ports (update_stats m size allowed tcp udp syslog api) = allowed_ports m.
Proof.
  unfold update_stats. now destruct (bpf_map_lookup_elem _ _).
Qed.

Lemma update_stats_with_cidr_rules (rules : list cidr_rule) (m : bpf_maps)
    (size allowed tcp udp syslog api : Z) :
  update_stats (with_cidr_rules rules m) size allowed tcp udp syslog api =
  with_cidr_rules rules (update_stats m size allowed tcp udp syslog api).
Proof.
  unfold update_stats, with_cidr_rules. simpl.
  now destruct (bpf_map_lookup_elem _ _).
Qed.

(** C8 (amended): for every input, when the statistics block is present,
    [update_stats] adds 1 to [packets_total] and the packet size to
    [bytes_total]; adds them to the allowed counters when [allowed] and to
    the blocked counters otherwise; adds 1 to [tcp_packets] (and, if
    [is_api], to [api_packets]) when [is_tcp]; adds 1 to [udp_packets] (and,
    if [is_syslog], to [syslog_packets]) when [is_udp] and not [is_tcp];
    and changes nothing else, neither a counter nor a rule table. *)
Theorem update_stats_spec (m : bpf_maps) (st : xdp_stats)
    (size allowed tcp udp syslog api : Z) :
  xdp_statistics m !! 0%nat = Some st ->
  update_stats m size allowed tcp udp syslog api =
    {| cidr_rules := cidr_rules m;
       allowed_ports := allowed_ports m;
       xdp_statistics :=
         <[0%nat :=
            {| packets_total := add64 (packets_total st) 1;
               packets_allowed :=
                 if c_true allowed
                 then add64 (packets_allowed st) 1 else packets_allowed st;
               packets_blocked :=
                 if c_true allowed
                 then packets_blocked st else add64 (packets_blocked st) 1;
               bytes_total := add64 (bytes_total st) size;
               bytes_allowed :=
                 if c_true allowed
                 then add64 (bytes_allowed st) size else bytes_allowed st;
               bytes_blocked :=
                 if c_true allowed
                 then bytes_blocked st else add64 (bytes_blocked st) size;
               tcp_packets :=
                 if c_true tcp then add64 (tcp_packets st) 1 else tcp_packets st;
               udp_packets :=
                 if negb (c_true tcp) && c_true udp
                 then add64 (udp_packets st) 1 else udp_packets st;
               syslog_packets :=
                 if negb (c_true tcp) && c_true udp && c_true syslog
                 then add64 (syslog_packets st) 1 else syslog_packets st;
               api_packets :=
                 if c_true tcp && c_true api
                 then add64 (api_packets st) 1 else api_packets st |}]>
           (xdp_statistics m) |}.
Proof.
  intros Hst. unfold update_stats, bpf_map_lookup_elem. rewrite Hst.
  now rewrite update_stats_block_eq.
Qed.

(** A blocked UDP syslog datagram of 60 bytes, recorded on fresh counters. *)
Lemma update_stats_spec_witness :
  xdp_statistics example_maps !! 0%nat = Some stats_zero /\
  xdp_statistics (update_stats example_maps 60 0 0 1 1 0) =
    [ {| packets_total := 1; packets_allowed := 0; packets_blocked := 1;
         bytes_total := 60; bytes_allowed := 0; bytes_blocked := 60;
         tcp_packets := 0; udp_packets := 1; syslog_packets := 1;
         api_packets := 0 |} ].
Proof.
  split; [reflexivity|].
  rewrite (update_stats_spec example_maps stats_zero 60 0 0 1 1 0);
    reflexivity.
Defined.

(** C8, as stated, fails on the input with both [is_tcp] and [is_udp] set:
    [udp_packets] and [syslog_packets] keep their value although [is_udp]
    and [is_syslog] are set. *)
Lemma update_stats_tcp_and_udp_counterexample :
  xdp_statistics (update_stats example_maps 60 1 1 1 1 0) =
    [ {| packets_total := 1; packets_allowed := 1; packets_blocked := 0;
         bytes_total := 60; bytes_allowed := 60; bytes_blocked := 0;
         tcp_packets := 1; udp_packets := 0; syslog_packets := 0;
         api_packets := 0 |} ]
  /\ c_true 1 = true
  /\ add64 (udp_packets stats_zero) 1 = 1
  /\ add64 (syslog_packets stats_zero) 1 = 1.
Proof.
  repeat split.
Qed.

(** ** The decision *)

(** From here on the two scans are used through their lemmas only. *)
Arguments check_port_allowed_loop : simpl never.
Arguments cidr_scan : simpl never.

Section Decision.

Variable host : byte_order.

Lemma xdp_filter_func_well_formed (m : bpf_maps) (pkt : list byte) :
  well_formed pkt = true ->
  xdp_filter_func host m pkt = filter_decision m (wire_locals host pkt).
Proof.
  intros Hwf. unfold xdp_filter_func.
  now rewrite (parse_headers_well_formed host pkt Hwf).
Qed.

(** The port gate is closed: lines 180-183. *)
Lemma filter_decision_port_closed (m : bpf_maps) (l : locals) :
  check_port_allowed (allowed_ports m) (dest_port l) = 0 ->
  filter_decision m l =
    (XDP_DROP,
     update_stats m (packet_size l) 0
       (is_tcp l) (is_udp l) (is_syslog l) (is_api l)).
Proof.
  intros H. unfold filter_decision. rewrite H. reflexivity.
Qed.

(** The port gate is open: lines 186-210. *)
Lemma filter_decision_port_open (m : bpf_maps) (l : locals) :
  check_port_allowed (allowed_ports m) (dest_port l) = 1 ->
  filter_decision m l =
    (if cidr_scan MAX_CIDR_RULES 0 (cidr_rules m) (src_ip l) (dest_port l) =? 1
     then XDP_PASS else XDP_DROP,
     update_stats m (packet_size l)
       (cidr_scan MAX_CIDR_RULES 0 (cidr_rules m) (src_ip l) (dest_port l))
       (is_tcp l) (is_udp l) (is_syslog l) (is_api l)).
Proof.
  intros H. unfold filter_decision. rewrite H.
  change (negb (c_true 1)) with false. cbv iota.
  destruct (cidr_scan_bool (src_ip l) (dest_port l) (cidr_rules m)
              MAX_CIDR_RULES 0) as [-> | ->]; reflexivity.
Qed.

(** Whatever the tables, a well-formed packet gets one statistics update,
    charged with the frame length and the verdict. *)
Lemma xdp_filter_func_stats (m : bpf_maps) (pkt : list byte) (st : xdp_stats) :
  well_formed pkt = true ->
  xdp_statistics m !! 0%nat = Some st ->
  exists allowed : Z,
    fst (xdp_filter_func host m pkt) =
      (if c_true allowed then XDP_PASS else XDP_DROP) /\
    xdp_statistics (snd (xdp_filter_func host m pkt)) !! 0%nat =
      Some (update_stats_block (frame_len pkt) allowed
              (is_tcp (wire_locals host pkt)) (is_udp (wire_locals host pkt))
              (is_syslog (wire_locals host pkt)) (is_api (wire_locals host pkt))
              st).
Proof.
  intros Hwf Hst. rewrite (xdp_filter_func_well_formed m pkt Hwf).
  destruct (check_port_allowed_loop_bool (allowed_ports m)
              (dest_port (wire_locals host pkt)) MAX_PORT_RULES 0) as [H1|H0].
  - rewrite (filter_decision_port_open m _ H1).
    set (a := cidr_scan MAX_CIDR_RULES 0 _ _ _).
    exists a. split; [|now apply update_stats_lookup].
    assert (a = 1 \/ a = 0) as [-> | ->] by apply cidr_scan_bool;
      reflexivity.
  - rewrite (filter_decision_port_closed m _ H0).
    exists 0. split; [reflexivity|]. now apply update_stats_lookup.
Qed.

(** C1: a well-formed IPv4 TCP or UDP packet whose destination port the
    allow-list does not allow is dropped, and [packets_blocked] grows by
    exactly 1 (an addition of [__u64]: the successor, unless the counter
    stood at [2^64 - 1]) while [packets_allowed] keeps its value; the
    verdict and the maps left behind are the same for every content
    [rules] of the CIDR table. *)
Theorem default_deny (m : bpf_maps) (pkt : list byte) (st : xdp_stats) :
  well_formed pkt = true ->
  check_port_allowed (allowed_ports m) (wire_dest_port pkt) = 0 ->
  xdp_statistics m !! 0%nat = Some st ->
  exists (m' : bpf_maps) (st' : xdp_stats),
    xdp_filter_func host m pkt = (XDP_DROP, m') /\
    xdp_statistics m' !! 0%nat = Some st' /\
    packets_blocked st' = add64 (packets_blocked st) 1 /\
    (0 <= packets_blocked st < 2 ^ 64 - 1 ->
     packets_blocked st' = packets_blocked st + 1) /\
    packets_allowed st' = packets_allowed st /\
    forall rules : list cidr_rule,
      xdp_filter_func host (with_cidr_rules rules m) pkt =
        (XDP_DROP, with_cidr_rules rules m').
Proof.
  intros Hwf Hport Hst.
  exists (update_stats m (frame_len pkt) 0
            (is_tcp (wire_locals host pkt)) (is_udp (wire_locals host pkt))
            (is_syslog (wire_locals host pkt)) (is_api (wire_locals host pkt))).
  exists (update_stats_block (frame_len pkt) 0
            (is_tcp (wire_locals host pkt)) (is_udp (wire_locals host pkt))
            (is_syslog (wire_locals host pkt)) (is_api (wire_locals host pkt))
            st).
  split; [|split; [|split; [|split; [|split]]]].
  - rewrite (xdp_filter_func_well_formed m pkt Hwf).
    now apply filter_decision_port_closed.
  - now apply update_stats_lookup.
  - now rewrite update_stats_block_eq.
  - rewrite update_stats_block_eq. simpl. intros Hrange.
    unfold add64. apply Z.mod_small. lia.
  - now rewrite update_stats_block_eq.
  - intros rules.
    rewrite (xdp_filter_func_well_formed _ pkt Hwf).
    rewrite filter_decision_port_closed by assumption.
    now rewrite update_stats_with_cidr_rules.
Qed.

(** The specification's wording of a matching slot, as a proposition. *)
Lemma slot_matches_iff (src dport : Z) (rule : cidr_rule) :
  slot_matches src dport rule = true <->
  enabled rule <> 0 /\
  (port rule = 0 \/ port rule = dport) /\
  Z.land src (mask rule) = Z.land (network rule) (mask rule).
Proof.
  unfold slot_matches, c_true.
  rewrite !andb_true_iff, orb_true_iff, negb_true_iff, !Z.eqb_eq, Z.eqb_neq.
  tauto.
Qed.

(** C2: for a well-formed IPv4 TCP or UDP packet that passes the port
    gate, the scan takes a slot for a match iff the rule is enabled, its
    port is 0 or the destination port, and the masked source address equals
    the masked network; on a match the scan stops with [ip_allowed = 1],
    otherwise it goes on to the next slot.  A matching slot [i < 1024]
    decides the outcome alone: every table with the same slots [0..i] yields
    PASS, recorded as allowed.  When none of the slots [0..1023] matches,
    the verdict is DROP, recorded as blocked. *)
Theorem cidr_first_match_wins (m : bpf_maps) (pkt : list byte) :
  well_formed pkt = true ->
  check_port_allowed (allowed_ports m) (wire_dest_port pkt) = 1 ->
  (forall rule : cidr_rule,
     slot_matches (wire_src_ip host pkt) (wire_dest_port pkt) rule = true <->
     enabled rule <> 0 /\
     (port rule = 0 \/ port rule = wire_dest_port pkt) /\
     Z.land (wire_src_ip host pkt) (mask rule) =
       Z.land (network rule) (mask rule))
  /\ (forall (n i : nat) (rule : cidr_rule),
        cidr_rules m !! i = Some rule ->
        cidr_scan (S n) i (cidr_rules m)
          (wire_src_ip host pkt) (wire_dest_port pkt) =
          if slot_matches (wire_src_ip host pkt) (wire_dest_port pkt) rule
          then 1
          else cidr_scan n (S i) (cidr_rules m)
                 (wire_src_ip host pkt) (wire_dest_port pkt))
  /\ (forall i : nat,
        (i < MAX_CIDR_RULES)%nat ->
        matches_at (cidr_rules m)
          (wire_src_ip host pkt) (wire_dest_port pkt) i ->
        forall rules' : list cidr_rule,
          take (S i) rules' = take (S i) (cidr_rules m) ->
          xdp_filter_func host (with_cidr_rules rules' m) pkt =
            (XDP_PASS,
             update_stats (with_cidr_rules rules' m) (frame_len pkt) 1
               (is_tcp (wire_locals host pkt)) (is_udp (wire_locals host pkt))
               (is_syslog (wire_locals host pkt))
               (is_api (wire_locals host pkt))))
  /\ ((forall i : nat,
         (i < MAX_CIDR_RULES)%nat ->
         ~ matches_at (cidr_rules m)
             (wire_src_ip host pkt) (wire_dest_port pkt) i) ->
      xdp_filter_func host m pkt =
        (XDP_DROP,
         update_stats m (frame_len pkt) 0
           (is_tcp (wire_locals host pkt)) (is_udp (wire_locals host pkt))
           (is_syslog (wire_locals host pkt))
           (is_api (wire_locals host pkt)))).
Proof.
  intros Hwf Hport. split; [|split; [|split]].
  - intros rule. apply slot_matches_iff.
  - intros n i rule Hi. now apply cidr_scan_Some.
  - intros i Hi (rule & Hrule & Hm) rules' Htake.
    rewrite (xdp_filter_func_well_formed _ pkt Hwf).
    rewrite filter_decision_port_open by assumption.
    assert (cidr_scan MAX_CIDR_RULES 0 (cidr_rules (with_cidr_rules rules' m))
              (src_ip (wire_locals host pkt))
              (dest_port (wire_locals host pkt)) = 1) as ->; [|reflexivity].
    apply cidr_scan_1. exists i. split; [lia|]. exists rule.
    split; [|assumption]. simpl.
    rewrite (lookup_of_take (cidr_rules m) rules' (S i) i); auto.
  - intros Hno.
    rewrite (xdp_filter_func_well_formed _ pkt Hwf).
    rewrite filter_decision_port_open by assumption.
    assert (cidr_scan MAX_CIDR_RULES 0 (cidr_rules m)
              (src_ip (wire_locals host pkt))
              (dest_port (wire_locals host pkt)) = 0) as ->; [|reflexivity].
    apply cidr_scan_0. intros k Hk. apply Hno. lia.
Qed.

(** [check_port_allowed] stops at a slot holding 0 before it compares it
    with the port. *)
Lemma check_port_allowed_0 (ports : list Z) : check_port_allowed ports 0 = 0.
Proof.
  destruct (check_port_allowed_loop_bool ports 0 MAX_PORT_RULES 0) as [H1|H0];
    [|assumption].
  apply check_port_allowed_loop_1 in H1 as (Hp & _). congruence.
Qed.

(** C10: on every allow-list [check_port_allowed] answers 0 (false) for
    the port 0, so a well-formed IPv4 TCP or UDP packet with destination
    port 0 is dropped at the port gate: the verdict is DROP and the
    statistics update is the gate's, with [allowed = 0] and no tag. *)
Theorem port_zero_dropped (ports : list Z) (m : bpf_maps) (pkt : list byte) :
  check_port_allowed ports 0 = 0 /\
  (well_formed pkt = true ->
   wire_dest_port pkt = 0 ->
   xdp_filter_func host m pkt =
     (XDP_DROP,
      update_stats m (frame_len pkt) 0
        (Z.b2z (wire_protocol pkt =? 6)) (Z.b2z (wire_protocol pkt =? 17))
        0 0)).
Proof.
  split; [apply check_port_allowed_0|]. intros Hwf Hport.
  rewrite (xdp_filter_func_well_formed _ pkt Hwf).
  rewrite filter_decision_port_closed
    by (simpl; rewrite Hport; apply check_port_allowed_0).
  simpl. rewrite Hport. simpl. now rewrite !andb_false_r.
Qed.

End Decision.

(** ** The verdicts of the parser *)

Section Parser.

Variable host : byte_order.

(** C3 (amended): for a buffer recognised as IPv4, the parser drops the
    frame as malformed exactly when the declared IPv4 header length is
    below the minimum of 5 words or the buffer cannot hold the declared
    TCP or UDP header; such a drop leaves every map, hence every
    statistics counter, unchanged. *)
Theorem malformed_drop (m : bpf_maps) (pkt : list byte) :
  is_ipv4 pkt = true ->
  (parse_headers host pkt = Return XDP_DROP <->
     wire_ihl pkt < 5 \/ l4_truncated pkt = true)
  /\ (parse_headers host pkt = Return XDP_DROP ->
      xdp_filter_func host m pkt = (XDP_DROP, m)).
Proof.
  intros Hip. split.
  - rewrite parse_headers_contract. unfold parse_contract, l4_truncated.
    rewrite Hip. simpl.
    destruct (wire_ihl pkt <? 5) eqn:Eihl.
    { split; [intros _; left; lia|reflexivity]. }
    destruct (is_tcp_or_udp pkt); simpl.
    + destruct (frame_len pkt <? _).
      * split; [now right|reflexivity].
      * split; [discriminate|]. intros [?|?]; [lia|discriminate].
    + split; [discriminate|]. intros [?|?]; [lia|discriminate].
  - intros Hdrop. unfold xdp_filter_func. now rewrite Hdrop.
Qed.

(** C5 (amended): a frame that is not IPv4 (too short for the Ethernet
    and IPv4 headers, or of another EtherType), or an IPv4 frame with a
    header length of at least 5 words whose protocol is neither TCP nor
    UDP, passes, and every map, hence every statistics counter, is left
    unchanged. *)
Theorem pass_through (m : bpf_maps) (pkt : list byte) :
  is_ipv4 pkt = false \/ (5 <= wire_ihl pkt /\ is_tcp_or_udp pkt = false) ->
  xdp_filter_func host m pkt = (XDP_PASS, m).
Proof.
  intros H. unfold xdp_filter_func.
  rewrite parse_headers_contract. unfold parse_contract.
  destruct (is_ipv4 pkt); simpl; [|reflexivity].
  destruct H as [H|[Hihl Hl4]]; [discriminate|].
  replace (wire_ihl pkt <? 5) with false by lia.
  now rewrite Hl4.
Qed.


Lemma byte_at_same_headers (pkt1 pkt2 : list byte) (off : Z) :
  same_headers pkt1 pkt2 ->
  0 <= off < headers_end pkt1 ->
  byte_at pkt1 off = byte_at pkt2 off.
Proof.
  intros [_ Htake] Hoff. unfold byte_at.
  rewrite (lookup_of_take pkt1 pkt2 (Z.to_nat (headers_end pkt1))); auto.
  lia.
Qed.

(** C9: the verdict and the maps left behind are a function of the maps
    and of the frame's length and headers only: two frames of the same
    length that agree up to the end of the transport header (Ethernet,
    IPv4, and the fixed TCP or UDP header) get the same verdict and leave
    the same statistics, whatever their payloads. *)
Theorem payload_independence (m : bpf_maps) (pkt1 pkt2 : list byte) :
  same_headers pkt1 pkt2 ->
  xdp_filter_func host m pkt1 = xdp_filter_func host m pkt2.
Proof.
  intros Hsame.
  assert (Hend : 34 <= headers_end pkt1) by (unfold headers_end; lia).
  assert (Hb : forall off, 0 <= off < 34 -> byte_at pkt1 off = byte_at pkt2 off)
    by (intros off Hoff; apply byte_at_same_headers; [assumption|lia]).
  assert (Hlen : frame_len pkt1 = frame_len pkt2)
    by (unfold frame_len; destruct Hsame as [-> _]; reflexivity).
  assert (Hihl : wire_ihl pkt1 = wire_ihl pkt2)
    by (unfold wire_ihl; rewrite Hb by lia; reflexivity).
  assert (Hproto : wire_protocol pkt1 = wire_protocol pkt2)
    by (unfold wire_protocol; apply Hb; lia).
  assert (Hl4 : wire_l4 pkt1 = wire_l4 pkt2)
    by (unfold wire_l4; now rewrite Hihl).
  assert (Hip : is_ipv4 pkt1 = is_ipv4 pkt2)
    by (unfold is_ipv4; rewrite Hlen, !Hb by lia; reflexivity).
  assert (Htu : is_tcp_or_udp pkt1 = is_tcp_or_udp pkt2)
    by (unfold is_tcp_or_udp; now rewrite Hproto).
  assert (Htr : l4_truncated pkt1 = l4_truncated pkt2)
    by (unfold l4_truncated; now rewrite Htu, Hlen, Hl4, Hproto).
  assert (Hsrc : wire_src_ip host pkt1 = wire_src_ip host pkt2).
  { unfold wire_src_ip, load_u32, load_u16.
    destruct host; rewrite !Hb by lia; reflexivity. }
  unfold xdp_filter_func. rewrite !parse_headers_contract.
  unfold parse_contract. rewrite <- Hip, <- Hihl, <- Htu, <- Htr.
  destruct (negb (is_ipv4 pkt1)); [reflexivity|].
  destruct (wire_ihl pkt1 <? 5) eqn:Eihl; [reflexivity|].
  destruct (is_tcp_or_udp pkt1) eqn:Etu; [|reflexivity]. simpl.
  destruct (l4_truncated pkt1); [reflexivity|].
  assert (Hl4s : 8 <= l4_size (wire_protocol pkt1)).
  { unfold is_tcp_or_udp in Etu. unfold l4_size.
    destruct (wire_protocol pkt1 =? 6); [lia|].
    destruct (wire_protocol pkt1 =? 17); [lia|discriminate]. }
  assert (Hihl0 : 0 <= wire_ihl pkt1)
    by (unfold wire_ihl; apply Z.land_nonneg; right; lia).
  assert (Hport : wire_dest_port pkt1 = wire_dest_port pkt2).
  { unfold wire_dest_port. rewrite <- Hl4.
    rewrite !(byte_at_same_headers pkt1 pkt2);
      try assumption; unfold headers_end, wire_l4; lia. }
  unfold wire_locals. now rewrite Hsrc, Hport, Hproto, Hlen.
Qed.

End Parser.

(** ** Conservation of the statistics over a run *)

Section Run.

Variable host : byte_order.

Lemma process_all_snoc (m : bpf_maps) (pkts : list (list byte)) (pkt : list byte) :
  process_all host m (pkts ++ [pkt]) =
  snd (xdp_filter_func host (process_all host m pkts) pkt).
Proof. unfold process_all. now rewrite foldl_snoc. Qed.

Lemma total_len_snoc (pkts : list (list byte)) (pkt : list byte) :
  total_len (pkts ++ [pkt]) = total_len pkts + frame_len pkt.
Proof.
  unfold total_len. induction pkts as [|p pkts IH]; simpl; lia.
Qed.

(** The invariant of a run that starts with the counters at zero: the
    counters are the exact numbers of allowed and blocked packets and
    bytes, reduced modulo [2^64]. *)
Lemma process_all_counts (m : bpf_maps) (pkts : list (list byte)) :
  Forall (fun pkt => well_formed pkt = true) pkts ->
  xdp_statistics m !! 0%nat = Some stats_zero ->
  exists (st : xdp_stats) (a b ba bb : Z),
    xdp_statistics (process_all host m pkts) !! 0%nat = Some st /\
    (0 <= a /\ 0 <= b /\ a + b = Z.of_nat (length pkts)) /\
    (0 <= ba /\ 0 <= bb /\ ba + bb = total_len pkts) /\
    (packets_total st = (a + b) mod 2 ^ 64 /\
     packets_allowed st = a mod 2 ^ 64 /\
     packets_blocked st = b mod 2 ^ 64) /\
    (bytes_total st = (ba + bb) mod 2 ^ 64 /\
     bytes_allowed st = ba mod 2 ^ 64 /\
     bytes_blocked st = bb mod 2 ^ 64).
Proof.
  intros Hwf Hzero. induction pkts as [|pkt pkts IH] using rev_ind.
  { exists stats_zero, 0, 0, 0, 0. simpl. repeat split; try assumption; lia. }
  apply Forall_app in Hwf as [Hpkts Hpkt]. apply Forall_inv in Hpkt.
  destruct (IH Hpkts)
    as (st & a & b & ba & bb & Hst & (Ha & Hb & Hab) & (Hba & Hbb & Hbab)
        & (Ht & Hal & Hbl) & (Hbt & Hbal & Hbbl)).
  rewrite process_all_snoc.
  destruct (xdp_filter_func_stats host _ pkt st Hpkt Hst)
    as (allowed & _ & Hst').
  rewrite update_stats_block_eq in Hst'.
  assert (0 <= frame_len pkt) by (unfold frame_len; lia).
  rewrite length_app, total_len_snoc. simpl length.
  destruct (c_true allowed).
  - eexists _, (a + 1), b, (ba + frame_len pkt), bb.
    split; [exact Hst'|]. simpl.
    rewrite Ht, Hal, Hbt, Hbal, !add64_mod.
    repeat split; try assumption; try lia; f_equal; lia.
  - eexists _, a, (b + 1), ba, (bb + frame_len pkt).
    split; [exact Hst'|]. simpl.
    rewrite Ht, Hbl, Hbt, Hbbl, !add64_mod.
    repeat split; try assumption; try lia; f_equal; lia.
Qed.

(** C4: after a run of [N] well-formed IPv4 TCP or UDP packets from
    counters at zero, [packets_allowed + packets_blocked = packets_total
    = N] and [bytes_allowed + bytes_blocked = bytes_total], the total of
    the frame lengths: as equations between 64-bit counters for every run,
    and between the numbers themselves as long as [N], respectively the
    total length, is below [2^64].  Every statistics update adds 1 to
    [packets_total] and to exactly one of [packets_allowed] and
    [packets_blocked], which changes it. *)
Theorem statistics_conservation (m : bpf_maps) (pkts : list (list byte)) :
  Forall (fun pkt => well_formed pkt = true) pkts ->
  xdp_statistics m !! 0%nat = Some stats_zero ->
  (exists st : xdp_stats,
     xdp_statistics (process_all host m pkts) !! 0%nat = Some st /\
     add64 (packets_allowed st) (packets_blocked st) = packets_total st /\
     packets_total st = Z.of_nat (length pkts) mod 2 ^ 64 /\
     add64 (bytes_allowed st) (bytes_blocked st) = bytes_total st /\
     bytes_total st = total_len pkts mod 2 ^ 64 /\
     (Z.of_nat (length pkts) < 2 ^ 64 ->
      packets_allowed st + packets_blocked st = packets_total st /\
      packets_total st = Z.of_nat (length pkts)) /\
     (total_len pkts < 2 ^ 64 ->
      bytes_allowed st + bytes_blocked st = bytes_total st /\
      bytes_total st = total_len pkts))
  /\ (forall (st : xdp_stats) (size allowed tcp udp syslog api : Z),
        packets_total (update_stats_block size allowed tcp udp syslog api st) =
          add64 (packets_total st) 1 /\
        (packets_allowed (update_stats_block size allowed tcp udp syslog api st) =
           add64 (packets_allowed st) 1 /\
         packets_blocked (update_stats_block size allowed tcp udp syslog api st) =
           packets_blocked st
         \/
         packets_allowed (update_stats_block size allowed tcp udp syslog api st) =
           packets_allowed st /\
         packets_blocked (update_stats_block size allowed tcp udp syslog api st) =
           add64 (packets_blocked st) 1) /\
        add64 (packets_allowed st) 1 <> packets_allowed st /\
        add64 (packets_blocked st) 1 <> packets_blocked st).
Proof.
  intros Hwf Hzero. split.
  - destruct (process_all_counts m pkts Hwf Hzero)
      as (st & a & b & ba & bb & Hst & (Ha & Hb & Hab) & (Hba & Hbb & Hbab)
          & (Ht & Hal & Hbl) & (Hbt & Hbal & Hbbl)).
    exists st. split; [assumption|].
    rewrite Ht, Hal, Hbl, Hbt, Hbal, Hbbl, <- Hab, <- Hbab.
    unfold add64. rewrite <- !Z.add_mod by lia.
    do 4 (split; [reflexivity|]).
    split; intros Hlt; rewrite !Z.mod_small by lia; split; reflexivity.
  - intros st size allowed tcp udp syslog api.
    rewrite update_stats_block_eq. simpl.
    split; [reflexivity|].
    split; [destruct (c_true allowed); [left | right]; now split|].
    split; apply add64_1_neq.
Qed.

End Run.

(** ** The theorems at concrete frames

    The tables are those of the specification's examples, on a
    little-endian host. *)

(** The three packets of the specification's examples. *)
Example spec_example_allowed :
  fst (xdp_filter_func LittleEndian example_maps (tcp_frame 10 0 0 5 22)) =
    XDP_PASS /\
  xdp_statistics
    (snd (xdp_filter_func LittleEndian example_maps (tcp_frame 10 0 0 5 22))) =
    [ {| packets_total := 1; packets_allowed := 1; packets_blocked := 0;
         bytes_total := 54; bytes_allowed := 54; bytes_blocked := 0;
         tcp_packets := 1; udp_packets := 0; syslog_packets := 0;
         api_packets := 0 |} ].
Proof. vm_compute. split; reflexivity. Qed.

Example spec_example_port_blocked :
  fst (xdp_filter_func LittleEndian example_maps (udp_frame 10 0 0 5 10500)) =
    XDP_DROP /\
  xdp_statistics
    (snd (xdp_filter_func LittleEndian example_maps (udp_frame 10 0 0 5 10500))) =
    [ {| packets_total := 1; packets_allowed := 0; packets_blocked := 1;
         bytes_total := 42; bytes_allowed := 0; bytes_blocked := 42;
         tcp_packets := 0; udp_packets := 1; syslog_packets := 1;
         api_packets := 0 |} ].
Proof. vm_compute. split; reflexivity. Qed.

Example spec_example_source_blocked :
  fst (xdp_filter_func LittleEndian example_maps (tcp_frame 192 168 1 1 22)) =
    XDP_DROP /\
  xdp_statistics
    (snd (xdp_filter_func LittleEndian example_maps (tcp_frame 192 168 1 1 22))) =
    [ {| packets_total := 1; packets_allowed := 0; packets_blocked := 1;
         bytes_total := 54; bytes_allowed := 0; bytes_blocked := 54;
         tcp_packets := 1; udp_packets := 0; syslog_packets := 0;
         api_packets := 0 |} ].
Proof. vm_compute. split; reflexivity. Qed.

(** The first of them on a big-endian host. *)
Example spec_example_allowed_be :
  fst (xdp_filter_func BigEndian example_maps_be (tcp_frame 10 0 0 5 22)) =
    XDP_PASS /\
  fst (xdp_filter_func BigEndian example_maps_be (tcp_frame 10 0 1 5 22)) =
    XDP_DROP.
Proof. vm_compute. split; reflexivity. Qed.

(** The UDP datagram to port 10500, which the allow-list does not hold. *)
Lemma default_deny_witness :
  well_formed (udp_frame 10 0 0 5 10500) = true /\
  check_port_allowed (allowed_ports example_maps)
    (wire_dest_port (udp_frame 10 0 0 5 10500)) = 0 /\
  xdp_statistics example_maps !! 0%nat = Some stats_zero /\
  exists (m' : bpf_maps) (st' : xdp_stats),
    xdp_filter_func LittleEndian example_maps (udp_frame 10 0 0 5 10500) =
      (XDP_DROP, m') /\
    xdp_statistics m' !! 0%nat = Some st' /\
    packets_blocked st' = add64 (packets_blocked stats_zero) 1 /\
    (0 <= packets_blocked stats_zero < 2 ^ 64 - 1 ->
     packets_blocked st' = packets_blocked stats_zero + 1) /\
    packets_allowed st' = packets_allowed stats_zero /\
    forall rules : list cidr_rule,
      xdp_filter_func LittleEndian (with_cidr_rules rules example_maps)
        (udp_frame 10 0 0 5 10500) =
        (XDP_DROP, with_cidr_rules rules m').
Proof.
  split; [reflexivity|]. split; [reflexivity|]. split; [reflexivity|].
  exact (default_deny LittleEndian example_maps (udp_frame 10 0 0 5 10500)
           stats_zero eq_refl eq_refl eq_refl).
Defined.

(** The TCP segment from 10.0.0.5 to port 22: slot 0 matches. *)
Lemma cidr_first_match_wins_witness :
  well_formed (tcp_frame 10 0 0 5 22) = true /\
  check_port_allowed (allowed_ports example_maps)
    (wire_dest_port (tcp_frame 10 0 0 5 22)) = 1 /\
  matches_at (cidr_rules example_maps)
    (wire_src_ip LittleEndian (tcp_frame 10 0 0 5 22))
    (wire_dest_port (tcp_frame 10 0 0 5 22)) 0 /\
  xdp_filter_func LittleEndian example_maps (tcp_frame 10 0 0 5 22) =
    (XDP_PASS, update_stats example_maps 54 1 1 0 0 0).
Proof.
  assert (Hm : matches_at (cidr_rules example_maps)
                 (wire_src_ip LittleEndian (tcp_frame 10 0 0 5 22))
                 (wire_dest_port (tcp_frame 10 0 0 5 22)) 0)
    by (exists rule_10_0_0; split; reflexivity).
  split; [reflexivity|]. split; [reflexivity|]. split; [exact Hm|].
  destruct (cidr_first_match_wins LittleEndian example_maps
              (tcp_frame 10 0 0 5 22) eq_refl eq_refl)
    as (_ & _ & Hfirst & _).
  exact (Hfirst 0%nat (Nat.lt_0_succ _) Hm (cidr_rules example_maps) eq_refl).
Defined.

(** C3, as stated, fails on a TCP segment whose IPv4 header declares 4
    words: 4 is not below 4 and the buffer holds the declared TCP header,
    yet the frame is dropped as malformed. *)
Lemma ihl_four_counterexample :
  is_ipv4 ihl4_tcp_frame = true /\
  wire_ihl ihl4_tcp_frame = 4 /\
  (wire_ihl ihl4_tcp_frame <? 4) = false /\
  l4_truncated ihl4_tcp_frame = false /\
  parse_headers LittleEndian ihl4_tcp_frame = Return XDP_DROP /\
  xdp_filter_func LittleEndian example_maps ihl4_tcp_frame =
    (XDP_DROP, example_maps).
Proof. repeat split. Qed.

(** A TCP segment cut inside its header. *)
Lemma malformed_drop_witness :
  is_ipv4 short_tcp_frame = true /\
  l4_truncated short_tcp_frame = true /\
  xdp_filter_func LittleEndian example_maps short_tcp_frame =
    (XDP_DROP, example_maps).
Proof.
  split; [reflexivity|]. split; [reflexivity|].
  destruct (malformed_drop LittleEndian example_maps short_tcp_frame eq_refl)
    as [Hiff Hdrop].
  apply Hdrop, Hiff. right. reflexivity.
Defined.

(** C5, as stated, fails on an ICMP packet whose IPv4 header declares 4
    words: its protocol is neither TCP nor UDP, yet it is dropped. *)
Lemma icmp_ihl_four_counterexample :
  is_ipv4 ihl4_icmp_frame = true /\
  wire_protocol ihl4_icmp_frame = 1 /\
  is_tcp_or_udp ihl4_icmp_frame = false /\
  xdp_filter_func LittleEndian example_maps ihl4_icmp_frame =
    (XDP_DROP, example_maps).
Proof. repeat split. Qed.

(** An ICMP packet with a regular IPv4 header. *)
Lemma pass_through_witness :
  (is_ipv4 icmp_frame = false \/
   (5 <= wire_ihl icmp_frame /\ is_tcp_or_udp icmp_frame = false)) /\
  xdp_filter_func LittleEndian example_maps icmp_frame =
    (XDP_PASS, example_maps).
Proof.
  assert (H : is_ipv4 icmp_frame = false \/
              (5 <= wire_ihl icmp_frame /\ is_tcp_or_udp icmp_frame = false)).
  { right. split; [|reflexivity]. vm_compute. discriminate. }
  split; [exact H|].
  exact (pass_through LittleEndian example_maps icmp_frame H).
Defined.


(** Two TCP segments that differ in their four payload bytes only. *)
Lemma payload_independence_witness :
  same_headers (with_payload (tcp_frame 10 0 0 5 22) [1; 2; 3; 4])
               (with_payload (tcp_frame 10 0 0 5 22) [9; 8; 7; 6]) /\
  xdp_filter_func LittleEndian example_maps
    (with_payload (tcp_frame 10 0 0 5 22) [1; 2; 3; 4]) =
  xdp_filter_func LittleEndian example_maps
    (with_payload (tcp_frame 10 0 0 5 22) [9; 8; 7; 6]).
Proof.
  assert (H : same_headers (with_payload (tcp_frame 10 0 0 5 22) [1; 2; 3; 4])
                           (with_payload (tcp_frame 10 0 0 5 22) [9; 8; 7; 6]))
    by (split; reflexivity).
  split; [exact H|].
  exact (payload_independence LittleEndian example_maps _ _ H).
Defined.

(** A TCP segment to port 0. *)
Lemma port_zero_dropped_witness :
  check_port_allowed (allowed_ports example_maps) 0 = 0 /\
  well_formed (tcp_frame 10 0 0 5 0) = true /\
  wire_dest_port (tcp_frame 10 0 0 5 0) = 0 /\
  xdp_filter_func LittleEndian example_maps (tcp_frame 10 0 0 5 0) =
    (XDP_DROP, update_stats example_maps 54 0 1 0 0 0).
Proof.
  destruct (port_zero_dropped LittleEndian (allowed_ports example_maps)
              example_maps (tcp_frame 10 0 0 5 0)) as [Hzero Hdrop].
  split; [exact Hzero|]. split; [reflexivity|]. split; [reflexivity|].
  exact (Hdrop eq_refl eq_refl).
Defined.

(** The three packets of the specification's examples, in a row. *)
Lemma statistics_conservation_witness :
  Forall (fun pkt => well_formed pkt = true)
    [tcp_frame 10 0 0 5 22; udp_frame 10 0 0 5 10500; tcp_frame 192 168 1 1 22] /\
  xdp_statistics example_maps !! 0%nat = Some stats_zero /\
  exists st : xdp_stats,
    xdp_statistics
      (process_all LittleEndian example_maps
         [tcp_frame 10 0 0 5 22; udp_frame 10 0 0 5 10500;
          tcp_frame 192 168 1 1 22]) !! 0%nat = Some st /\
    packets_allowed st + packets_blocked st = packets_total st /\
    packets_total st = 3 /\
    bytes_allowed st + bytes_blocked st = bytes_total st /\
    bytes_total st = 150.
Proof.
  assert (Hwf : Forall (fun pkt => well_formed pkt = true)
                  [tcp_frame 10 0 0 5 22; udp_frame 10 0 0 5 10500;
                   tcp_frame 192 168 1 1 22])
    by (repeat constructor).
  split; [exact Hwf|]. split; [reflexivity|].
  destruct (statistics_conservation LittleEndian example_maps _ Hwf eq_refl)
    as [(st & Hst & _ & _ & _ & _ & Hpackets & Hbytes) _].
  exists st. split; [exact Hst|].
  destruct (Hpackets eq_refl) as [Hsum Htotal].
  destruct (Hbytes eq_refl) as [Hbsum Hbtotal].
  repeat split; assumption.
Defined.

(** * Further properties of the filter *)

(** ** Every load stays inside the buffer *)

Lemma read_u8_in_bounds (pkt : list byte) (off : Z) :
  0 <= off < frame_len pkt -> read_u8 pkt off = Some (byte_at pkt off).
Proof.
  intros Hoff. unfold read_u8, byte_at, frame_len in *.
  replace (off <? 0) with false by lia.
  destruct (pkt !! Z.to_nat off) as [b|] eqn:Hb; [reflexivity|].
  apply lookup_ge_None in Hb. lia.
Qed.

Lemma read_u16_in_bounds (host : byte_order) (pkt : list byte) (off : Z) :
  0 <= off -> off + 2 <= frame_len pkt ->
  read_u16 host pkt off = Some (load_u16 host pkt off).
Proof.
  intros H0 Hend. unfold read_u16.
  rewrite !read_u8_in_bounds by lia. reflexivity.
Qed.

Lemma read_u32_in_bounds (host : byte_order) (pkt : list byte) (off : Z) :
  0 <= off -> off + 4 <= frame_len pkt ->
  read_u32 host pkt off = Some (load_u32 host pkt off).
Proof.
  intros H0 Hend. unfold read_u32.
  rewrite !read_u16_in_bounds by lia. now destruct host.
Qed.

Lemma wire_ihl_range (pkt : list byte) : 0 <= wire_ihl pkt < 16.
Proof.
  unfold wire_ihl. change 0x0f with (Z.ones 4).
  rewrite Z.land_ones by lia. change (2 ^ 4) with 16.
  pose proof (Z.mod_pos_bound (byte_at pkt 14) 16). lia.
Qed.

(** X1: the bounds checks of the parser cover every load it performs: on
    every buffer, of any length including the empty one, the parser with
    checked loads never reads outside [[data, data_end)] and computes what
    [parse_headers] computes. *)
Theorem parse_headers_reads_in_bounds (host : byte_order) (pkt : list byte) :
  parse_headers_checked host pkt = Some (parse_headers host pkt).
Proof.
  unfold parse_headers_checked, parse_headers, eth_h_proto, ip_protocol,
    ip_saddr, l4_dest, ip_ihl, sizeof_ethhdr, sizeof_iphdr, sizeof_tcphdr,
    sizeof_udphdr.
  fold (frame_len pkt).
  change (0 + 14 + 20) with 34. change (0 + 14 + 12) with 26.
  change (0 + 14 + 9) with 23. change (0 + 12) with 12. change (0 + 14) with 14.
  pose proof (wire_ihl_range pkt) as Hihl.
  destruct (14 >? frame_len pkt) eqn:E14; [reflexivity|].
  rewrite (read_u16_in_bounds host pkt 12) by lia. cbn [mbind option_bind].
  destruct (negb _); [reflexivity|].
  destruct (34 >? frame_len pkt) eqn:E34; [reflexivity|].
  rewrite (read_u8_in_bounds pkt 14), (read_u8_in_bounds pkt 23),
    (read_u32_in_bounds host pkt 26) by lia.
  cbn [mbind option_bind]. fold (wire_ihl pkt).
  destruct (wire_ihl pkt <? 5) eqn:E5; [reflexivity|].
  destruct (byte_at pkt 23 =? IPPROTO_TCP).
  { destruct (14 + wire_ihl pkt * 4 + 20 >? frame_len pkt) eqn:Etcp;
      [reflexivity|].
    rewrite read_u16_in_bounds by lia. reflexivity. }
  destruct (byte_at pkt 23 =? IPPROTO_UDP); [|reflexivity].
  destruct (14 + wire_ihl pkt * 4 + 8 >? frame_len pkt) eqn:Eudp;
    [reflexivity|].
  rewrite read_u16_in_bounds by lia. reflexivity.
Qed.

(** ** What the filter reads and what it writes *)

Lemma filter_decision_eq (m : bpf_maps) (l : locals) :
  filter_decision m l =
    (if c_true (decision_flag m l) then XDP_PASS else XDP_DROP,
     update_stats m (packet_size l) (decision_flag m l)
       (is_tcp l) (is_udp l) (is_syslog l) (is_api l)).
Proof.
  unfold filter_decision, decision_flag.
  destruct (negb (c_true (check_port_allowed _ _))); [reflexivity|].
  cbv zeta. now destruct (c_true _).
Qed.

Lemma decision_flag_tables (m m' : bpf_maps) (l : locals) :
  cidr_rules m' = cidr_rules m ->
  allowed_ports m' = allowed_ports m ->
  decision_flag m' l = decision_flag m l.
Proof.
  intros Hr Hp. unfold decision_flag. now rewrite Hr, Hp.
Qed.

Lemma xdp_filter_func_tables (host : byte_order) (m : bpf_maps) (pkt : list byte) :
  cidr_rules (snd (xdp_filter_func host m pkt)) = cidr_rules m /\
  allowed_ports (snd (xdp_filter_func host m pkt)) = allowed_ports m /\
  length (xdp_statistics (snd (xdp_filter_func host m pkt))) =
    length (xdp_statistics m).
Proof.
  unfold xdp_filter_func. destruct (parse_headers host pkt) as [a|l].
  { now repeat split. }
  rewrite filter_decision_eq. cbn [snd].
  unfold update_stats. destruct (bpf_map_lookup_elem _ _); [|now repeat split].
  cbn. split; [reflexivity|]. split; [reflexivity|]. apply length_insert.
Qed.

Lemma xdp_filter_func_verdict_tables (host : byte_order) (m m' : bpf_maps)
    (pkt : list byte) :
  cidr_rules m' = cidr_rules m ->
  allowed_ports m' = allowed_ports m ->
  fst (xdp_filter_func host m' pkt) = fst (xdp_filter_func host m pkt).
Proof.
  intros Hr Hp. unfold xdp_filter_func.
  destruct (parse_headers host pkt) as [a|l]; [reflexivity|].
  rewrite !filter_decision_eq. cbn [fst].
  now rewrite (decision_flag_tables m m' l Hr Hp).
Qed.

Lemma process_all_tables (host : byte_order) (pkts : list (list byte)) (m : bpf_maps) :
  cidr_rules (process_all host m pkts) = cidr_rules m /\
  allowed_ports (process_all host m pkts) = allowed_ports m /\
  length (xdp_statistics (process_all host m pkts)) = length (xdp_statistics m).
Proof.
  revert m. induction pkts as [|pkt pkts IH]; intros m; [now repeat split|].
  change (process_all host m (pkt :: pkts))
    with (process_all host (snd (xdp_filter_func host m pkt)) pkts).
  destruct (IH (snd (xdp_filter_func host m pkt))) as (-> & -> & ->).
  apply xdp_filter_func_tables.
Qed.

(** X2: the filter only reads its rule tables.  After any run of frames,
    well-formed or not, the CIDR table and the port allow-list are what
    they were, and the statistics map has as many slots as before. *)
Theorem rule_tables_read_only (host : byte_order) (m : bpf_maps)
    (pkts : list (list byte)) :
  cidr_rules (process_all host m pkts) = cidr_rules m /\
  allowed_ports (process_all host m pkts) = allowed_ports m /\
  length (xdp_statistics (process_all host m pkts)) = length (xdp_statistics m).
Proof. apply process_all_tables. Qed.

(** X3: the statistics never influence the verdict: with any other
    statistics map, present or empty, a frame gets the same verdict.  When
    the lookup of the statistics slot fails, [update_stats] returns without
    a write and the filter leaves every map as it was. *)
Theorem verdict_ignores_statistics (host : byte_order) (m : bpf_maps)
    (stats : list xdp_stats) (pkt : list byte) :
  fst (xdp_filter_func host (with_statistics stats m) pkt) =
    fst (xdp_filter_func host m pkt)
  /\ (xdp_statistics m !! 0%nat = None ->
      snd (xdp_filter_func host m pkt) = m).
Proof.
  split; [now apply xdp_filter_func_verdict_tables|].
  intros Hnone. unfold xdp_filter_func.
  destruct (parse_headers host pkt) as [a|l]; [reflexivity|].
  rewrite filter_decision_eq. cbn [snd].
  unfold update_stats, bpf_map_lookup_elem. now rewrite Hnone.
Qed.

(** A blocked datagram on maps without a statistics slot. *)
Lemma verdict_ignores_statistics_witness :
  xdp_statistics maps_without_stats !! 0%nat = None /\
  fst (xdp_filter_func LittleEndian maps_without_stats
         (udp_frame 10 0 0 5 10500)) =
    fst (xdp_filter_func LittleEndian example_maps (udp_frame 10 0 0 5 10500)) /\
  snd (xdp_filter_func LittleEndian maps_without_stats
         (udp_frame 10 0 0 5 10500)) = maps_without_stats.
Proof.
  destruct (verdict_ignores_statistics LittleEndian example_maps []
              (udp_frame 10 0 0 5 10500)) as [Hverdict _].
  destruct (verdict_ignores_statistics LittleEndian maps_without_stats []
              (udp_frame 10 0 0 5 10500)) as [_ Hsame].
  split; [reflexivity|]. split; [exact Hverdict|exact (Hsame eq_refl)].
Defined.

(** X4: the filter keeps no state between packets: in the middle of any
    run of frames, a frame gets the verdict it would get as the first
    frame. *)
Theorem verdict_stateless (host : byte_order) (m : bpf_maps)
    (pkts : list (list byte)) (pkt : list byte) :
  fst (xdp_filter_func host (process_all host m pkts) pkt) =
    fst (xdp_filter_func host m pkt).
Proof.
  destruct (process_all_tables host pkts m) as (Hr & Hp & _).
  now apply xdp_filter_func_verdict_tables.
Qed.

(** ** The verdict, case by case *)

Lemma decision_flag_1 (m : bpf_maps) (l : locals) :
  c_true (decision_flag m l) = true <->
  check_port_allowed (allowed_ports m) (dest_port l) = 1 /\
  exists i : nat, (i < MAX_CIDR_RULES)%nat /\
    matches_at (cidr_rules m) (src_ip l) (dest_port l) i.
Proof.
  unfold decision_flag.
  destruct (check_port_allowed_loop_bool (allowed_ports m) (dest_port l)
              MAX_PORT_RULES 0) as [Hp|Hp];
    unfold check_port_allowed; rewrite Hp; cbn [c_true Z.eqb negb].
  - destruct (cidr_scan_bool (src_ip l) (dest_port l) (cidr_rules m)
                MAX_CIDR_RULES 0) as [Hs|Hs].
    + rewrite Hs. split; [intros _; split; [reflexivity|]|reflexivity].
      apply cidr_scan_1 in Hs as (k & Hk & Hm). exists k. split; [lia|assumption].
    + rewrite Hs. split; [discriminate|]. intros (_ & k & Hk & Hm).
      destruct (proj1 (cidr_scan_0 _ _ _ _ _) Hs k); [lia|assumption].
  - split; [discriminate|]. intros [H _]. discriminate.
Qed.

(** X5: the verdict of every frame.  A frame passes exactly when it is
    not IPv4, or is IPv4 with a header of at least 5 words and a protocol
    other than TCP and UDP, or is a well-formed TCP or UDP packet whose
    destination port is allowed and whose source matches one of the slots
    [0..1023]; every other frame is dropped. *)
Theorem verdict_pass_iff (host : byte_order) (m : bpf_maps) (pkt : list byte) :
  (fst (xdp_filter_func host m pkt) = XDP_PASS <->
     is_ipv4 pkt = false \/
     (5 <= wire_ihl pkt /\ is_tcp_or_udp pkt = false) \/
     (well_formed pkt = true /\
      check_port_allowed (allowed_ports m) (wire_dest_port pkt) = 1 /\
      exists i : nat, (i < MAX_CIDR_RULES)%nat /\
        matches_at (cidr_rules m)
          (wire_src_ip host pkt) (wire_dest_port pkt) i))
  /\ (fst (xdp_filter_func host m pkt) = XDP_PASS \/
      fst (xdp_filter_func host m pkt) = XDP_DROP).
Proof.
  split; [|destruct (fst _); auto].
  unfold xdp_filter_func. rewrite parse_headers_contract.
  unfold parse_contract, well_formed. rewrite Z.leb_antisym.
  destruct (is_ipv4 pkt); cbn [negb andb fst]; [|split; auto].
  destruct (wire_ihl pkt <? 5) eqn:Eihl; cbn [negb andb fst].
  { split; [discriminate|].
    intros [H|[[H _]|[H _]]]; [discriminate|lia|discriminate]. }
  destruct (is_tcp_or_udp pkt); cbn [negb andb fst].
  2:{ split; [intros _; right; left; split; [lia|reflexivity]|reflexivity]. }
  destruct (l4_truncated pkt); cbn [negb andb fst].
  { split; [discriminate|].
    intros [H|[[_ H]|[H _]]]; discriminate. }
  rewrite filter_decision_eq. cbn [fst].
  pose proof (decision_flag_1 m (wire_locals host pkt)) as Hflag.
  cbn [wire_locals src_ip dest_port] in Hflag.
  destruct (c_true (decision_flag m (wire_locals host pkt))).
  - split; [intros _|reflexivity]. right; right. split; [reflexivity|].
    now apply Hflag.
  - split; [discriminate|].
    intros [H|[[_ H]|[_ H]]]; try discriminate.
    apply Hflag in H. discriminate.
Qed.

(** X7: a program whose tables have not been filled drops every
    well-formed IPv4 TCP or UDP packet: when the first slot of the
    allow-list is missing or holds the sentinel 0, or when no slot of the
    CIDR table holds an enabled rule. *)
Theorem unconfigured_tables_drop (host : byte_order) (m : bpf_maps)
    (pkt : list byte) :
  well_formed pkt = true ->
  allowed_ports m !! 0%nat = None \/
  allowed_ports m !! 0%nat = Some 0 \/
  (forall (i : nat) (rule : cidr_rule),
     cidr_rules m !! i = Some rule -> enabled rule = 0) ->
  fst (xdp_filter_func host m pkt) = XDP_DROP.
Proof.
  intros Hwf Hempty. rewrite (xdp_filter_func_well_formed host m pkt Hwf).
  rewrite filter_decision_eq. cbn [fst].
  pose proof (decision_flag_1 m (wire_locals host pkt)) as Hflag.
  destruct (c_true (decision_flag m (wire_locals host pkt))); [|reflexivity].
  exfalso. destruct Hflag as [Hflag _].
  destruct (Hflag eq_refl) as (Hport & i & Hi & rule & Hrule & Hm).
  apply check_port_allowed_loop_1 in Hport as (Hp & k & Hk & Hkp & Hz).
  destruct Hempty as [Hnone|[Hzero|Hdisabled]].
  - apply lookup_lt_Some in Hkp. apply lookup_ge_None in Hnone. lia.
  - destruct k as [|k]; [congruence|]. apply (Hz 0%nat); [lia|assumption].
  - apply Hdisabled in Hrule. unfold slot_matches, c_true in Hm.
    rewrite Hrule in Hm. discriminate.
Qed.

(** The freshly loaded allow-list, all 0. *)
Lemma unconfigured_tables_drop_witness :
  well_formed (tcp_frame 10 0 0 5 22) = true /\
  replicate MAX_PORT_RULES 0 !! 0%nat = Some 0 /\
  fst (xdp_filter_func LittleEndian
         {| cidr_rules := cidr_rules example_maps;
            allowed_ports := replicate MAX_PORT_RULES 0;
            xdp_statistics := [stats_zero] |}
         (tcp_frame 10 0 0 5 22)) = XDP_DROP.
Proof.
  split; [reflexivity|]. split; [reflexivity|].
  apply unconfigured_tables_drop; [reflexivity|]. right; left. reflexivity.
Defined.

(** ** The mask of a CIDR rule *)

(** X8: the edge cases of the mask in [check_cidr_match].  The bits of
    [network] outside the mask are ignored; an enabled rule with mask 0
    matches every source address; an enabled rule with the full mask
    [0xffffffff] matches one 32-bit address only, its [network]; a disabled
    rule matches nothing. *)
Theorem check_cidr_match_mask (ip : Z) (rule : cidr_rule) :
  check_cidr_match ip rule =
    check_cidr_match ip
      {| network := Z.land (network rule) (mask rule); mask := mask rule;
         port := port rule; enabled := enabled rule;
         reserved := reserved rule |}
  /\ (enabled rule <> 0 -> mask rule = 0 -> check_cidr_match ip rule = 1)
  /\ (enabled rule <> 0 -> mask rule = 0xffffffff ->
      0 <= ip < 2 ^ 32 -> 0 <= network rule < 2 ^ 32 ->
      (check_cidr_match ip rule = 1 <-> ip = network rule))
  /\ (enabled rule = 0 -> check_cidr_match ip rule = 0).
Proof.
  unfold check_cidr_match, c_true. cbn [network mask enabled].
  split; [|split; [|split]].
  - now rewrite <- Z.land_assoc, Z.land_diag.
  - intros He Hm. rewrite Hm, !Z.land_0_r.
    replace (enabled rule =? 0) with false by lia. reflexivity.
  - intros He Hm Hip Hnet. rewrite Hm.
    replace (enabled rule =? 0) with false by lia. cbn [negb].
    change 0xffffffff with (Z.ones 32).
    rewrite !Z.land_ones, !Z.mod_small by lia.
    destruct (ip =? network rule) eqn:E; cbn; split; intros; try lia;
      discriminate.
  - intros He. now rewrite He.
Qed.

(** The rule 10.0.0.5/32 on a little-endian host. *)
Lemma check_cidr_match_mask_witness :
  check_cidr_match 0x0500000a
    {| network := 0x0500000a; mask := 0xffffffff; port := 0; enabled := 1;
       reserved := 0 |} = 1 /\
  check_cidr_match 0x0600000a
    {| network := 0; mask := 0; port := 0; enabled := 1; reserved := 0 |} = 1.
Proof.
  destruct (check_cidr_match_mask 0x0500000a
              {| network := 0x0500000a; mask := 0xffffffff; port := 0;
                 enabled := 1; reserved := 0 |}) as (_ & _ & Hfull & _).
  destruct (check_cidr_match_mask 0x0600000a
              {| network := 0; mask := 0; port := 0; enabled := 1;
                 reserved := 0 |}) as (_ & Hzero & _).
  split.
  - apply Hfull; [discriminate|reflexivity|split; [discriminate|reflexivity]..
                 |reflexivity].
  - apply Hzero; [discriminate|reflexivity].
Defined.

(** ** What the parser hands to the decision *)

Lemma load_u16_range (host : byte_order) (pkt : list byte) (off : Z) :
  0 <= load_u16 host pkt off < 2 ^ 16.
Proof.
  pose proof (byte_at_range pkt off). pose proof (byte_at_range pkt (off + 1)).
  rewrite load_u16_value. change (2 ^ 16) with 65536. destruct host; lia.
Qed.

Lemma load_u32_range (host : byte_order) (pkt : list byte) (off : Z) :
  0 <= load_u32 host pkt off < 2 ^ 32.
Proof.
  pose proof (load_u16_range LittleEndian pkt off).
  pose proof (load_u16_range LittleEndian pkt (off + 2)).
  pose proof (load_u16_range BigEndian pkt off).
  pose proof (load_u16_range BigEndian pkt (off + 2)).
  change (2 ^ 16) with 65536 in *. change (2 ^ 32) with 4294967296.
  destruct host; unfold load_u32; [|rewrite Z.lor_comm];
    rewrite (lor_shiftl_low _ _ 16) by (change (2 ^ 16) with 65536; lia);
    change (2 ^ 16) with 65536; lia.
Qed.

(** X6: the locals the parser hands to the port gate are well typed: the
    source address is a 32-bit and the destination port a 16-bit number,
    the packet size is the length of the buffer and at least 42 bytes,
    exactly one of [is_tcp] and [is_udp] is 1, and a tag is 0 or 1 and is
    set only with its own transport.  In particular [update_stats] is never
    called with [is_tcp] and [is_udp] both set. *)
Theorem parsed_locals_invariant (host : byte_order) (pkt : list byte) (l : locals) :
  parse_headers host pkt = Next l ->
  0 <= src_ip l < 2 ^ 32 /\
  0 <= dest_port l < 2 ^ 16 /\
  packet_size l = frame_len pkt /\
  42 <= packet_size l /\
  (is_tcp l = 1 /\ is_udp l = 0 /\ is_syslog l = 0 /\
   (is_api l = 0 \/ is_api l = 1)
   \/
   is_tcp l = 0 /\ is_udp l = 1 /\ is_api l = 0 /\
   (is_syslog l = 0 \/ is_syslog l = 1)).
Proof.
  intros Hparse. apply parse_headers_Next in Hparse as [Hwf ->].
  cbn [wire_locals src_ip dest_port packet_size is_tcp is_udp is_syslog is_api].
  split; [apply load_u32_range|].
  split.
  { unfold wire_dest_port. change (2 ^ 16) with 65536.
    pose proof (byte_at_range pkt (wire_l4 pkt + 2)).
    pose proof (byte_at_range pkt (wire_l4 pkt + 3)). lia. }
  split; [reflexivity|].
  unfold well_formed, l4_truncated, is_tcp_or_udp, l4_size, wire_l4 in Hwf.
  apply andb_prop in Hwf as [Hwf Htr]. apply andb_prop in Hwf as [Hwf Hl4].
  apply andb_prop in Hwf as [_ Hihl]. rewrite Hl4 in Htr. cbn [andb] in Htr.
  destruct (wire_protocol pkt =? 6) eqn:Etcp.
  - replace (wire_protocol pkt =? 17) with false by lia.
    split; [lia|]. left. cbn. repeat split; try reflexivity.
    destruct (api_port _); auto.
  - destruct (wire_protocol pkt =? 17) eqn:Eudp; [|discriminate].
    split; [lia|]. right. cbn. repeat split; try reflexivity.
    destruct (syslog_port _); auto.
Qed.

(** The smallest well-formed frame: a UDP datagram without payload. *)
Lemma parsed_locals_invariant_witness :
  parse_headers LittleEndian (udp_frame 10 0 0 5 10500) =
    Next (wire_locals LittleEndian (udp_frame 10 0 0 5 10500)) /\
  packet_size (wire_locals LittleEndian (udp_frame 10 0 0 5 10500)) = 42 /\
  0 <= dest_port (wire_locals LittleEndian (udp_frame 10 0 0 5 10500)) < 2 ^ 16.
Proof.
  assert (H : parse_headers LittleEndian (udp_frame 10 0 0 5 10500) =
              Next (wire_locals LittleEndian (udp_frame 10 0 0 5 10500)))
    by reflexivity.
  split; [exact H|]. split; [reflexivity|].
  exact (proj1 (proj2 (parsed_locals_invariant LittleEndian _ _ H))).
Defined.

(** ** The breakdown by protocol over a run *)

Section Breakdown.

Variable host : byte_order.

Lemma process_all_protocol_counts (m : bpf_maps) (pkts : list (list byte)) :
  Forall (fun pkt => well_formed pkt = true) pkts ->
  xdp_statistics m !! 0%nat = Some stats_zero ->
  exists (st : xdp_stats) (t u s a : Z),
    xdp_statistics (process_all host m pkts) !! 0%nat = Some st /\
    (0 <= a <= t /\ 0 <= s <= u /\ t + u = Z.of_nat (length pkts)) /\
    packets_total st = (t + u) mod 2 ^ 64 /\
    tcp_packets st = t mod 2 ^ 64 /\
    udp_packets st = u mod 2 ^ 64 /\
    syslog_packets st = s mod 2 ^ 64 /\
    api_packets st = a mod 2 ^ 64.
Proof.
  intros Hwf Hzero. induction pkts as [|pkt pkts IH] using rev_ind.
  { exists stats_zero, 0, 0, 0, 0. simpl. repeat split; try assumption; lia. }
  apply Forall_app in Hwf as [Hpkts Hpkt]. apply Forall_inv in Hpkt.
  destruct (IH Hpkts)
    as (st & t & u & s & a & Hst & (Ha & Hs & Htu) & Ht & Htcp & Hudp & Hsys & Hapi).
  rewrite process_all_snoc.
  destruct (xdp_filter_func_stats host _ pkt st Hpkt Hst)
    as (allowed & _ & Hst').
  rewrite update_stats_block_eq in Hst'.
  cbn [wire_locals is_tcp is_udp is_syslog is_api] in Hst'.
  rewrite !c_true_b2z in Hst'.
  rewrite length_app. simpl length.
  unfold well_formed in Hpkt. apply andb_prop in Hpkt as [Hpkt _].
  apply andb_prop in Hpkt as [_ Hl4]. unfold is_tcp_or_udp in Hl4.
  destruct (wire_protocol pkt =? 6) eqn:Etcp.
  - replace (wire_protocol pkt =? 17) with false in Hst' by lia.
    cbn [negb andb] in Hst'.
    destruct (api_port (wire_dest_port pkt)).
    + eexists _, (t + 1), u, s, (a + 1). split; [exact Hst'|]. simpl.
      rewrite Ht, Htcp, Hapi, !add64_mod.
      repeat split; try assumption; try lia; f_equal; lia.
    + eexists _, (t + 1), u, s, a. split; [exact Hst'|]. simpl.
      rewrite Ht, Htcp, !add64_mod.
      repeat split; try assumption; try lia; f_equal; lia.
  - destruct (wire_protocol pkt =? 17) eqn:Eudp; [|discriminate].
    cbn [negb andb] in Hst'.
    destruct (syslog_port (wire_dest_port pkt)).
    + eexists _, t, (u + 1), (s + 1), a. split; [exact Hst'|]. simpl.
      rewrite Ht, Hudp, Hsys, !add64_mod.
      repeat split; try assumption; try lia; f_equal; lia.
    + eexists _, t, (u + 1), s, a. split; [exact Hst'|]. simpl.
      rewrite Ht, Hudp, !add64_mod.
      repeat split; try assumption; try lia; f_equal; lia.
Qed.

(** X11: after a run of [N] well-formed IPv4 TCP or UDP packets from
    counters at zero, every packet has been counted for exactly one
    protocol: [tcp_packets + udp_packets = packets_total] as 64-bit
    counters, and as numbers when [N < 2^64]; then also [api_packets <=
    tcp_packets] and [syslog_packets <= udp_packets]. *)
Theorem protocol_breakdown (m : bpf_maps) (pkts : list (list byte)) :
  Forall (fun pkt => well_formed pkt = true) pkts ->
  xdp_statistics m !! 0%nat = Some stats_zero ->
  exists st : xdp_stats,
    xdp_statistics (process_all host m pkts) !! 0%nat = Some st /\
    add64 (tcp_packets st) (udp_packets st) = packets_total st /\
    (Z.of_nat (length pkts) < 2 ^ 64 ->
     tcp_packets st + udp_packets st = packets_total st /\
     0 <= api_packets st <= tcp_packets st /\
     0 <= syslog_packets st <= udp_packets st).
Proof.
  intros Hwf Hzero.
  destruct (process_all_protocol_counts m pkts Hwf Hzero)
    as (st & t & u & s & a & Hst & (Ha & Hs & Htu) & Ht & Htcp & Hudp & Hsys & Hapi).
  exists st. split; [assumption|].
  rewrite Ht, Htcp, Hudp, Hsys, Hapi. unfold add64.
  rewrite <- Z.add_mod by lia. split; [reflexivity|].
  intros Hlt. rewrite !Z.mod_small by lia. lia.
Qed.

End Breakdown.

(** The three packets of the specification's examples, in a row. *)
Lemma protocol_breakdown_witness :
  Forall (fun pkt => well_formed pkt = true)
    [tcp_frame 10 0 0 5 22; udp_frame 10 0 0 5 10500; tcp_frame 192 168 1 1 22] /\
  xdp_statistics example_maps !! 0%nat = Some stats_zero /\
  exists st : xdp_stats,
    xdp_statistics
      (process_all LittleEndian example_maps
         [tcp_frame 10 0 0 5 22; udp_frame 10 0 0 5 10500;
          tcp_frame 192 168 1 1 22]) !! 0%nat = Some st /\
    tcp_packets st + udp_packets st = packets_total st.
Proof.
  assert (Hwf : Forall (fun pkt => well_formed pkt = true)
                  [tcp_frame 10 0 0 5 22; udp_frame 10 0 0 5 10500;
                   tcp_frame 192 168 1 1 22])
    by (repeat constructor).
  split; [exact Hwf|]. split; [reflexivity|].
  destruct (protocol_breakdown LittleEndian example_maps _ Hwf eq_refl)
    as (st & Hst & _ & Hexact).
  exists st. split; [exact Hst|]. exact (proj1 (Hexact eq_refl)).
Defined.

(** ** The order of the packets and the order of the rules *)

Lemma update_stats_as_insert (m : bpf_maps) (st : xdp_stats)
    (size allowed tcp udp syslog api : Z) :
  xdp_statistics m !! 0%nat = Some st ->
  update_stats m size allowed tcp udp syslog api =
    {| cidr_rules := cidr_rules m;
       allowed_ports := allowed_ports m;
       xdp_statistics :=
         <[0%nat := update_stats_block size allowed tcp udp syslog api st]>
           (xdp_statistics m) |}.
Proof.
  intros Hst. unfold update_stats, bpf_map_lookup_elem. now rewrite Hst.
Qed.

Lemma xdp_stats_eq (s1 s2 : xdp_stats) :
  packets_total s1 = packets_total s2 ->
  packets_allowed s1 = packets_allowed s2 ->
  packets_blocked s1 = packets_blocked s2 ->
  bytes_total s1 = bytes_total s2 ->
  bytes_allowed s1 = bytes_allowed s2 ->
  bytes_blocked s1 = bytes_blocked s2 ->
  tcp_packets s1 = tcp_packets s2 ->
  udp_packets s1 = udp_packets s2 ->
  syslog_packets s1 = syslog_packets s2 ->
  api_packets s1 = api_packets s2 ->
  s1 = s2.
Proof. destruct s1, s2; simpl; intros; subst; reflexivity. Qed.

Lemma add64_add64_comm (x v1 v2 : Z) :
  add64 (add64 x v1) v2 = add64 (add64 x v2) v1.
Proof.
  unfold add64. rewrite !Z.add_mod_idemp_l by lia. f_equal. lia.
Qed.

(** One counter after two updates, in either order. *)
Ltac counter_of_two_updates :=
  rewrite !update_stats_block_eq;
  cbn [packets_total packets_allowed packets_blocked bytes_total
       bytes_allowed bytes_blocked tcp_packets udp_packets syslog_packets
       api_packets];
  repeat match goal with
         | |- context [c_true ?x] => destruct (c_true x)
         end;
  cbn [negb andb];
  first [reflexivity | apply add64_add64_comm].

(** Two statistics updates commute. *)
Lemma update_stats_block_comm
    (size1 allowed1 tcp1 udp1 syslog1 api1 : Z)
    (size2 allowed2 tcp2 udp2 syslog2 api2 : Z) (st : xdp_stats) :
  update_stats_block size2 allowed2 tcp2 udp2 syslog2 api2
    (update_stats_block size1 allowed1 tcp1 udp1 syslog1 api1 st) =
  update_stats_block size1 allowed1 tcp1 udp1 syslog1 api1
    (update_stats_block size2 allowed2 tcp2 udp2 syslog2 api2 st).
Proof.
  apply xdp_stats_eq; counter_of_two_updates.
Qed.

Lemma update_stats_twice (m : bpf_maps) (st : xdp_stats)
    (size1 allowed1 tcp1 udp1 syslog1 api1 : Z)
    (size2 allowed2 tcp2 udp2 syslog2 api2 : Z) :
  xdp_statistics m !! 0%nat = Some st ->
  update_stats (update_stats m size1 allowed1 tcp1 udp1 syslog1 api1)
    size2 allowed2 tcp2 udp2 syslog2 api2 =
    {| cidr_rules := cidr_rules m;
       allowed_ports := allowed_ports m;
       xdp_statistics :=
         <[0%nat :=
            update_stats_block size2 allowed2 tcp2 udp2 syslog2 api2
              (update_stats_block size1 allowed1 tcp1 udp1 syslog1 api1 st)]>
           (xdp_statistics m) |}.
Proof.
  intros Hst.
  rewrite (update_stats_as_insert _ _ _ _ _ _ _ _
             (update_stats_lookup m st _ _ _ _ _ _ Hst)).
  rewrite (update_stats_as_insert m st _ _ _ _ _ _ Hst).
  cbn [cidr_rules allowed_ports xdp_statistics].
  now rewrite list_insert_insert_eq.
Qed.

Lemma update_stats_comm (m : bpf_maps)
    (size1 allowed1 tcp1 udp1 syslog1 api1 : Z)
    (size2 allowed2 tcp2 udp2 syslog2 api2 : Z) :
  update_stats (update_stats m size1 allowed1 tcp1 udp1 syslog1 api1)
    size2 allowed2 tcp2 udp2 syslog2 api2 =
  update_stats (update_stats m size2 allowed2 tcp2 udp2 syslog2 api2)
    size1 allowed1 tcp1 udp1 syslog1 api1.
Proof.
  destruct (xdp_statistics m !! 0%nat) as [st|] eqn:Hst.
  - rewrite (update_stats_twice m st size1 allowed1 tcp1 udp1 syslog1 api1
               size2 allowed2 tcp2 udp2 syslog2 api2 Hst).
    rewrite (update_stats_twice m st size2 allowed2 tcp2 udp2 syslog2 api2
               size1 allowed1 tcp1 udp1 syslog1 api1 Hst).
    now rewrite update_stats_block_comm.
  - unfold update_stats, bpf_map_lookup_elem. rewrite Hst. cbv iota.
    now rewrite Hst.
Qed.

Section Order.

Variable host : byte_order.

Lemma filter_swap (m : bpf_maps) (pkt1 pkt2 : list byte) :
  snd (xdp_filter_func host (snd (xdp_filter_func host m pkt1)) pkt2) =
  snd (xdp_filter_func host (snd (xdp_filter_func host m pkt2)) pkt1).
Proof.
  unfold xdp_filter_func.
  destruct (parse_headers host pkt1) as [a1|l1];
    destruct (parse_headers host pkt2) as [a2|l2]; try reflexivity.
  rewrite !filter_decision_eq. cbn [snd].
  rewrite (decision_flag_tables m (update_stats m _ _ _ _ _ _) l2)
    by apply update_stats_tables.
  rewrite (decision_flag_tables m (update_stats m _ _ _ _ _ _) l1)
    by apply update_stats_tables.
  apply update_stats_comm.
Qed.

Lemma process_all_cons (m : bpf_maps) (pkt : list byte) (pkts : list (list byte)) :
  process_all host m (pkt :: pkts) =
  process_all host (snd (xdp_filter_func host m pkt)) pkts.
Proof. reflexivity. Qed.

(** X9: the maps after a run do not depend on the order in which the
    frames arrived: any permutation of the run leaves the same statistics
    (and the same tables). *)
Theorem statistics_order_independent (m : bpf_maps) (pkts pkts' : list (list byte)) :
  pkts ≡ₚ pkts' ->
  process_all host m pkts = process_all host m pkts'.
Proof.
  intros Hperm. revert m.
  induction Hperm as [|pkt pkts pkts' _ IH|pkt1 pkt2 pkts|pkts1 pkts2 pkts3 _ IH1 _ IH2];
    intros m.
  - reflexivity.
  - rewrite !process_all_cons. apply IH.
  - rewrite !process_all_cons. now rewrite filter_swap.
  - now rewrite IH1.
Qed.

Lemma cidr_scan_elem_of (rules : list cidr_rule) (src dport : Z) :
  (length rules <= MAX_CIDR_RULES)%nat ->
  cidr_scan MAX_CIDR_RULES 0 rules src dport = 1 <->
  exists rule : cidr_rule, rule ∈ rules /\ slot_matches src dport rule = true.
Proof.
  intros Hlen. rewrite cidr_scan_1. split.
  - intros (k & _ & rule & Hk & Hm). exists rule.
    split; [now apply list_elem_of_lookup_2 in Hk|assumption].
  - intros (rule & Hin & Hm). apply list_elem_of_lookup_1 in Hin as [k Hk].
    exists k. split; [apply lookup_lt_Some in Hk; lia|]. now exists rule.
Qed.

(** X10: all rules allow, so their order is immaterial: when the CIDR
    table fits the 1024 slots the scan visits, any permutation of its slots
    gives every frame the same verdict and the same statistics update. *)
Theorem cidr_order_irrelevant (m : bpf_maps) (rules' : list cidr_rule)
    (pkt : list byte) :
  rules' ≡ₚ cidr_rules m ->
  (length (cidr_rules m) <= MAX_CIDR_RULES)%nat ->
  xdp_filter_func host (with_cidr_rules rules' m) pkt =
    (fst (xdp_filter_func host m pkt),
     with_cidr_rules rules' (snd (xdp_filter_func host m pkt))).
Proof.
  intros Hperm Hlen. unfold xdp_filter_func.
  destruct (parse_headers host pkt) as [a|l]; [reflexivity|].
  rewrite !filter_decision_eq. cbn [fst snd].
  assert (Hflag : decision_flag (with_cidr_rules rules' m) l = decision_flag m l).
  { unfold decision_flag. cbn [with_cidr_rules allowed_ports cidr_rules].
    destruct (negb _); [reflexivity|].
    assert (Hlen' : (length rules' <= MAX_CIDR_RULES)%nat)
      by (now rewrite (Permutation_length Hperm)).
    destruct (cidr_scan_bool (src_ip l) (dest_port l) rules' MAX_CIDR_RULES 0)
      as [H'|H'];
      destruct (cidr_scan_bool (src_ip l) (dest_port l) (cidr_rules m)
                  MAX_CIDR_RULES 0) as [H|H]; try congruence; exfalso.
    - apply (cidr_scan_elem_of _ _ _ Hlen') in H' as (rule & Hin & Hm).
      rewrite Hperm in Hin.
      assert (cidr_scan MAX_CIDR_RULES 0 (cidr_rules m) (src_ip l) (dest_port l) = 1)
        by (apply cidr_scan_elem_of; eauto).
      congruence.
    - apply (cidr_scan_elem_of _ _ _ Hlen) in H as (rule & Hin & Hm).
      rewrite <- Hperm in Hin.
      assert (cidr_scan MAX_CIDR_RULES 0 rules' (src_ip l) (dest_port l) = 1)
        by (apply cidr_scan_elem_of; eauto).
      congruence. }
  rewrite Hflag. now rewrite update_stats_with_cidr_rules.
Qed.

End Order.

(** A blocked datagram and an allowed segment, in both orders. *)
Lemma statistics_order_independent_witness :
  [udp_frame 10 0 0 5 10500; tcp_frame 10 0 0 5 22] ≡ₚ
    [tcp_frame 10 0 0 5 22; udp_frame 10 0 0 5 10500] /\
  process_all LittleEndian example_maps
    [udp_frame 10 0 0 5 10500; tcp_frame 10 0 0 5 22] =
  process_all LittleEndian example_maps
    [tcp_frame 10 0 0 5 22; udp_frame 10 0 0 5 10500].
Proof.
  assert (H : [udp_frame 10 0 0 5 10500; tcp_frame 10 0 0 5 22] ≡ₚ
              [tcp_frame 10 0 0 5 22; udp_frame 10 0 0 5 10500])
    by apply perm_swap.
  split; [exact H|].
  exact (statistics_order_independent LittleEndian example_maps _ _ H).
Defined.

(** The rule for 10.0.0.0/24 moved from slot 1 to slot 0. *)
Lemma cidr_order_irrelevant_witness :
  [rule_10_0_0; rule_unset] ≡ₚ [rule_unset; rule_10_0_0] /\
  (length [rule_unset; rule_10_0_0] <= MAX_CIDR_RULES)%nat /\
  fst (xdp_filter_func LittleEndian
         {| cidr_rules := [rule_10_0_0; rule_unset];
            allowed_ports := allowed_ports example_maps;
            xdp_statistics := [stats_zero] |}
         (tcp_frame 10 0 0 5 22)) =
  fst (xdp_filter_func LittleEndian
         {| cidr_rules := [rule_unset; rule_10_0_0];
            allowed_ports := allowed_ports example_maps;
            xdp_statistics := [stats_zero] |}
         (tcp_frame 10 0 0 5 22)).
Proof.
  assert (Hperm : [rule_10_0_0; rule_unset] ≡ₚ [rule_unset; rule_10_0_0])
    by apply perm_swap.
  assert (Hlen : (length [rule_unset; rule_10_0_0] <= MAX_CIDR_RULES)%nat)
    by (apply Nat.leb_le; reflexivity).
  split; [exact Hperm|]. split; [exact Hlen|].
  exact (f_equal fst
           (cidr_order_irrelevant LittleEndian
              {| cidr_rules := [rule_unset; rule_10_0_0];
                 allowed_ports := allowed_ports example_maps;
                 xdp_statistics := [stats_zero] |}
              [rule_10_0_0; rule_unset] (tcp_frame 10 0 0 5 22) Hperm Hlen)).
Defined.

(** ** The CIDR match and the host's byte order *)

Lemma land_low_range (n a c : Z) :
  0 <= n -> 0 <= a < 2 ^ n -> 0 <= Z.land a c < 2 ^ n.
Proof.
  intros Hn Ha. rewrite <- (Z.mod_small a (2 ^ n)) by lia.
  rewrite <- Z.land_ones by lia.
  rewrite <- Z.land_assoc, (Z.land_comm (Z.ones n)), Z.land_assoc.
  rewrite Z.land_ones by lia. apply Z.mod_pos_bound. lia.
Qed.

(** [land] acts separately on the low [n] bits and on the rest. *)
Lemma land_split (n a b c d : Z) :
  0 <= n -> 0 <= a < 2 ^ n -> 0 <= c < 2 ^ n ->
  Z.land (a + b * 2 ^ n) (c + d * 2 ^ n) = Z.land a c + Z.land b d * 2 ^ n.
Proof.
  intros Hn Ha Hc.
  rewrite <- !lor_shiftl_low by (try apply land_low_range; assumption).
  apply Z.bits_inj'. intros k Hk.
  rewrite !Z.land_spec, !Z.lor_spec, Z.land_spec.
  destruct (Z.lt_ge_cases k n) as [Hlt|Hge].
  - rewrite !Z.shiftl_spec_low by assumption. now rewrite !orb_false_r.
  - rewrite !Z.shiftl_spec by assumption. rewrite Z.land_spec.
    rewrite <- (Z.mod_small a (2 ^ n)), <- (Z.mod_small c (2 ^ n)) by lia.
    rewrite !Z.mod_pow2_bits_high by lia. reflexivity.
Qed.

Lemma split_eq (n a b c d : Z) :
  0 <= n -> 0 <= a < 2 ^ n -> 0 <= c < 2 ^ n ->
  a + b * 2 ^ n = c + d * 2 ^ n <-> a = c /\ b = d.
Proof.
  intros Hn Ha Hc. split; [|intros [-> ->]; reflexivity].
  intros H. assert (0 < 2 ^ n) by (apply Z.pow_pos_nonneg; lia).
  assert (b = d) by nia. subst. split; [lia|reflexivity].
Qed.

Lemma host_u32_halves (host : byte_order) (b0 b1 b2 b3 : Z) :
  host_u32 host b0 b1 b2 b3 =
    match host with
    | LittleEndian => (b0 + b1 * 2 ^ 8) + (b2 + b3 * 2 ^ 8) * 2 ^ 16
    | BigEndian => (b3 + b2 * 2 ^ 8) + (b1 + b0 * 2 ^ 8) * 2 ^ 16
    end.
Proof. destruct host; unfold host_u32; lia. Qed.

Lemma land_host_u32 (host : byte_order) (a0 a1 a2 a3 m0 m1 m2 m3 : Z) :
  0 <= a0 < 256 -> 0 <= a1 < 256 -> 0 <= a2 < 256 -> 0 <= a3 < 256 ->
  0 <= m0 < 256 -> 0 <= m1 < 256 -> 0 <= m2 < 256 -> 0 <= m3 < 256 ->
  Z.land (host_u32 host a0 a1 a2 a3) (host_u32 host m0 m1 m2 m3) =
  host_u32 host (Z.land a0 m0) (Z.land a1 m1) (Z.land a2 m2) (Z.land a3 m3).
Proof.
  intros. rewrite !host_u32_halves.
  destruct host;
    rewrite (land_split 16) by (change (2 ^ 16) with 65536; lia);
    rewrite !(land_split 8) by (change (2 ^ 8) with 256; lia);
    reflexivity.
Qed.

Lemma host_u32_inj (host : byte_order) (a0 a1 a2 a3 b0 b1 b2 b3 : Z) :
  0 <= a0 < 256 -> 0 <= a1 < 256 -> 0 <= a2 < 256 -> 0 <= a3 < 256 ->
  0 <= b0 < 256 -> 0 <= b1 < 256 -> 0 <= b2 < 256 -> 0 <= b3 < 256 ->
  host_u32 host a0 a1 a2 a3 = host_u32 host b0 b1 b2 b3 <->
  a0 = b0 /\ a1 = b1 /\ a2 = b2 /\ a3 = b3.
Proof.
  intros. unfold host_u32.
  change (2 ^ 8) with 256. change (2 ^ 16) with 65536.
  change (2 ^ 24) with 16777216.
  destruct host; lia.
Qed.

(** The source address the parser loads is made of the four octets at
    offsets 26 to 29 of the frame. *)
Lemma wire_src_ip_octets (host : byte_order) (pkt : list byte) :
  wire_src_ip host pkt =
    host_u32 host (byte_at pkt 26) (byte_at pkt 27) (byte_at pkt 28)
      (byte_at pkt 29).
Proof.
  pose proof (byte_at_range pkt 26). pose proof (byte_at_range pkt 27).
  pose proof (byte_at_range pkt 28). pose proof (byte_at_range pkt 29).
  unfold wire_src_ip, load_u32, host_u32.
  destruct host; [|rewrite Z.lor_comm];
    rewrite (lor_shiftl_low _ _ 16)
      by (try apply load_u16_range; lia);
    rewrite !load_u16_value;
    change (26 + 1) with 27; change (26 + 2) with 28;
    change (28 + 1) with 29;
    change (2 ^ 8) with 256; change (2 ^ 16) with 65536;
    change (2 ^ 24) with 16777216; lia.
Qed.

(** X12: the CIDR match does not depend on the host's byte order.  For a
    rule whose [network] and [mask] are stored as octets in network byte
    order, [check_cidr_match] on the source address the parser loaded
    answers 1 exactly when the rule is enabled and, octet by octet, the
    source address on the wire and the network agree under the mask. *)
Theorem cidr_match_on_the_wire (host : byte_order) (pkt : list byte)
    (n0 n1 n2 n3 m0 m1 m2 m3 : byte) (rule_port rule_enabled : Z) :
  check_cidr_match (wire_src_ip host pkt)
    (rule_of_octets host
       (byte_val n0) (byte_val n1) (byte_val n2) (byte_val n3)
       (byte_val m0) (byte_val m1) (byte_val m2) (byte_val m3)
       rule_port rule_enabled) = 1 <->
  rule_enabled <> 0 /\
  Z.land (byte_at pkt 26) (byte_val m0) = Z.land (byte_val n0) (byte_val m0) /\
  Z.land (byte_at pkt 27) (byte_val m1) = Z.land (byte_val n1) (byte_val m1) /\
  Z.land (byte_at pkt 28) (byte_val m2) = Z.land (byte_val n2) (byte_val m2) /\
  Z.land (byte_at pkt 29) (byte_val m3) = Z.land (byte_val n3) (byte_val m3).
Proof.
  pose proof (byte_at_range pkt 26). pose proof (byte_at_range pkt 27).
  pose proof (byte_at_range pkt 28). pose proof (byte_at_range pkt 29).
  pose proof (byte_val_range n0). pose proof (byte_val_range n1).
  pose proof (byte_val_range n2). pose proof (byte_val_range n3).
  pose proof (byte_val_range m0). pose proof (byte_val_range m1).
  pose proof (byte_val_range m2). pose proof (byte_val_range m3).
  unfold check_cidr_match, rule_of_octets, c_true.
  cbn [network mask enabled].
  rewrite wire_src_ip_octets, !land_host_u32 by assumption.
  rewrite <- (host_u32_inj host)
    by (apply (land_low_range 8); change (2 ^ 8) with 256; lia).
  destruct (Z.eqb_spec rule_enabled 0) as [Hen|Hen]; cbn [negb].
  - split; [discriminate|]. intros [Hne _]. contradiction.
  - match goal with
    | |- context [Z.b2z (?a =? ?b)] => destruct (Z.eqb_spec a b) as [Heq|Hneq]
    end; cbn [Z.b2z].
    + split; [intros _; now split|reflexivity].
    + split; [discriminate|]. intros [_ Heq]. contradiction.
Qed.

(** The example rule is 10.0.0.0 under 255.255.255.0 in network byte
    order, as either host reads it. *)
Example rule_10_0_0_octets :
  rule_of_octets LittleEndian 10 0 0 0 255 255 255 0 0 1 = rule_10_0_0 /\
  rule_of_octets BigEndian 10 0 0 0 255 255 255 0 0 1 = rule_10_0_0_be.
Proof. split; reflexivity. Qed.

(** ** The verdict and the accounting *)


